(** * Weather lookup demo: caches, resilient fetch and the two API clients

    A shallow embedding of [utils.js] (error classes, [CacheWithTTL],
    [ETagCache], [fetchWithRetry]), [weatherApi.js] ([getWeatherByCity],
    [getCacheInfo], [clearCache], [getWeatherForMultipleCities]),
    [mockApi.js] ([getCitiesPaginated], [searchCities], [getCityById],
    [clearETagCache]) and the search history of [main.js]
    ([addToHistory]).

    Conventions of the embedding:
    - JavaScript strings are byte strings holding their text in UTF-8, a
      surrogate pair being the four bytes of its character and a surrogate
      that is not part of a pair the three bytes of its own code;
    - JavaScript numbers are the doubles: [JNum n] for one whose value is
      the integer [n], [JFrac m e] for the value [m * 2^e] when it is not an
      integer, [JInfinity], [JNaN]; the number arguments of the functions
      (pages, limits, identifiers, retries, delays, clock readings, HTTP
      statuses) are integers, and clock readings, delays, statuses and
      numbers of attempts stay below [2^53], where a number prints as the
      integer it is;
    - [Date.now()] is an explicit argument of every operation that reads it;
    - the network is an oracle answering each attempt of a call, and every
      asynchronous function returns its completion together with the list of
      observable events (requests sent, delays slept) it produced;
    - module-level singletons ([weatherCache], [etagCache]) are threaded
      through the client functions as explicit state. *)

From stdpp Require Import gmap strings pretty list.
From Stdlib Require Import ZArith Lia Ascii String.

Open Scope string_scope.
Open Scope Z_scope.

(** ** JavaScript values *)

Module Js.

#[warnings="-register-all"] Inductive value :=
| JUndefined
| JNull
| JBool (b : bool)
| JNum (n : Z)
| JFrac (m e : Z)
| JInfinity (negative : bool)
| JNaN
| JStr (s : string)
| JArr (items : list value)
| JObj (props : list (string * value)).

(** An object: its own enumerable properties in order, each name once. *)
Definition object := list (string * value).

(** [ToBoolean]: what [if (v)] tests. *)
Definition truthy (v : value) : bool :=
  match v with
  | JUndefined | JNull | JNaN => false
  | JBool b => b
  | JNum n => negb (n =? 0)
  | JFrac m _ => negb (m =? 0)
  | JInfinity _ => true
  | JStr s => negb (String.eqb s "")
  | JArr _ | JObj _ => true
  end.

(** [v !== null]. *)
Definition not_null (v : value) : bool :=
  match v with
  | JNull => false
  | _ => true
  end.

(** [v === s] for a string literal [s]. *)
Definition is_str (s : string) (v : value) : bool :=
  match v with
  | JStr s' => String.eqb s' s
  | _ => false
  end.

(** [v === n] for a number literal [n]. *)
Definition is_num (n : Z) (v : value) : bool :=
  match v with
  | JNum n' => n' =? n
  | _ => false
  end.

(** A default parameter [p = null]: the default applies to [undefined]. *)
Definition default_null (v : value) : value :=
  match v with
  | JUndefined => JNull
  | _ => v
  end.

Fixpoint get_prop (k : string) (o : object) : value :=
  match o with
  | [] => JUndefined
  | (k', v) :: o' => if String.eqb k' k then v else get_prop k o'
  end.

(** [o[k] = v]: an existing property keeps its place, a new one is appended. *)
Fixpoint set_prop (k : string) (v : value) (o : object) : object :=
  match o with
  | [] => [(k, v)]
  | (k', v') :: o' =>
      if String.eqb k' k then (k, v) :: o' else (k', v') :: set_prop k v o'
  end.

Definition is_continuation (c : ascii) : bool :=
  let n := Z.of_nat (nat_of_ascii c) in (128 <=? n) && (n <? 192).

(** Splits UTF-8 text into its characters; the first component collects the
    continuation bytes met before any leading byte. *)
Fixpoint chars_aux (s : string) : string * list string :=
  match s with
  | EmptyString => (EmptyString, [])
  | String c rest =>
      let '(pending, out) := chars_aux rest in
      if is_continuation c then (String c pending, out)
      else (EmptyString, String c pending :: out)
  end.

Definition chars (s : string) : list string := snd (chars_aux s).

(** Number of UTF-16 code units of one character. *)
Definition units (ch : string) : Z :=
  match ch with
  | String c _ => if 240 <=? Z.of_nat (nat_of_ascii c) then 2 else 1
  | EmptyString => 0
  end.

(** [s.length]. *)
Definition str_length (s : string) : Z :=
  foldr (fun ch acc => units ch + acc) 0 (chars s).

Fixpoint indexed {A} (i : Z) (l : list A) : list (string * A) :=
  match l with
  | [] => []
  | x :: l' => (pretty i, x) :: indexed (i + 1) l'
  end.

Definition byte (c : ascii) : Z := Z.of_nat (nat_of_ascii c).

(** The three bytes of the code unit [u], from [0x0800] on. *)
Definition three_bytes (u : Z) : string :=
  String (ascii_of_nat (Z.to_nat (224 + u / 4096)))
    (String (ascii_of_nat (Z.to_nat (128 + (u / 64) mod 64)))
       (String (ascii_of_nat (Z.to_nat (128 + u mod 64))) EmptyString)).

(** The six bits a continuation byte carries, none when the byte is
    missing. *)
Definition payload (rest : string) (i : nat) : Z :=
  match String.get i rest with
  | Some b => byte b mod 64
  | None => 0
  end.

(** The UTF-16 code units of one character, each as a string: a character
    outside the Basic Multilingual Plane, whose leading byte is [0xF0] or
    more, gives its two surrogates. *)
Definition code_units (ch : string) : list string :=
  match ch with
  | String b1 rest =>
      if 240 <=? byte b1 then
        let point := (byte b1 mod 8) * 262144 + payload rest 0 * 4096
                     + payload rest 1 * 64 + payload rest 2 in
        [three_bytes (55296 + (point - 65536) / 1024);
         three_bytes (56320 + (point - 65536) mod 1024)]
      else [ch]
  | EmptyString => []
  end.

(** [{ ...v }]: the own enumerable properties copied by object spread: those
    of an object, the elements of an array under their indices, the code
    units of a string under theirs; other primitives contribute nothing. *)
Definition spread (v : value) : object :=
  match v with
  | JObj props => foldl (fun acc kv => set_prop kv.1 kv.2 acc) [] props
  | JArr items => indexed 0 items
  | JStr s => indexed 0 (JStr <$> (chars s ≫= code_units))
  | _ => []
  end.

(** [String.prototype.includes]. *)
Fixpoint includes (needle hay : string) : bool :=
  String.prefix needle hay ||
  match hay with
  | EmptyString => false
  | String _ rest => includes needle rest
  end.

Definition is_space (c : ascii) : bool :=
  let n := nat_of_ascii c in
  (n =? 32)%nat || ((9 <=? n)%nat && (n <=? 13)%nat).

Definition digit_of (radix : Z) (c : ascii) : option Z :=
  let n := Z.of_nat (nat_of_ascii c) in
  let d := if (48 <=? n) && (n <=? 57) then n - 48
           else if (97 <=? n) && (n <=? 122) then n - 87
           else if (65 <=? n) && (n <=? 90) then n - 55
           else radix in
  if d <? radix then Some d else None.

Fixpoint digits (radix : Z) (s : string) (acc : option Z) : option Z :=
  match s with
  | EmptyString => acc
  | String c rest =>
      match digit_of radix c with
      | Some d => digits radix rest (Some (default 0 acc * radix + d))
      | None => acc
      end
  end.

Fixpoint skip_spaces (s : string) : string :=
  match s with
  | String c rest => if is_space c then skip_spaces rest else s
  | EmptyString => s
  end.

Definition unsigned (s : string) : option Z :=
  match s with
  | String "0" (String "x" rest) | String "0" (String "X" rest) =>
      digits 16 rest None
  | _ => digits 10 s None
  end.

(** The integer with at most 53 significant bits nearest to [a >= 0], the
    even one of two equally near. *)
Definition round53 (a : Z) : Z :=
  if a <? 2 ^ 53 then a
  else
    let e := Z.log2 a - 52 in
    let q := a / 2 ^ e in
    let r := a mod 2 ^ e in
    let half := 2 ^ (e - 1) in
    (if (half <? r) || ((r =? half) && Z.odd q) then q + 1 else q) * 2 ^ e.

(** The double nearest to the integer [n]. *)
Definition of_integer (n : Z) : value :=
  let a := round53 (Z.abs n) in
  if 2 ^ 1024 <=? a then JInfinity (n <? 0) else JNum (Z.sgn n * a).

(** [parseInt(s)] with no radix argument. *)
Definition parseInt (s : string) : value :=
  let s := skip_spaces s in
  let '(sign, s) :=
    match s with
    | String "-" rest => (-1, rest)
    | String "+" rest => (1, rest)
    | _ => (1, s)
    end in
  match unsigned s with
  | Some n => of_integer (sign * n)
  | None => JNaN
  end.

(** The candidate with [k] digits for the decimal text of the double
    [x >= 2^53], which has [nd] digits: digits [s] and exponent [n] with
    [s * 10^(n-k)] rounding to [x], the nearest to [x] if there are two. *)
Definition with_digits (x nd k : Z) : option (Z * Z) :=
  let p := nd - k in
  let lo := x / 10 ^ p in
  let hi := lo + 1 in
  let below := if round53 (lo * 10 ^ p) =? x then Some (lo, nd) else None in
  let above :=
    if round53 (hi * 10 ^ p) =? x
    then Some (if hi =? 10 ^ k then (10 ^ (k - 1), nd + 1) else (hi, nd))
    else None in
  match below, above with
  | Some b, Some a =>
      let db := x - lo * 10 ^ p in
      let da := hi * 10 ^ p - x in
      if (db <? da) || ((db =? da) && Z.even lo) then Some b else Some a
  | Some b, None => Some b
  | None, a => a
  end.

(** The fewest digits that give [x] back. *)
Fixpoint shortest (fuel : nat) (x nd k : Z) : Z * Z :=
  match fuel with
  | O => (x, nd)
  | S fuel =>
      match with_digits x nd k with
      | Some found => found
      | None => shortest fuel x nd (k + 1)
      end
  end.

Fixpoint zeros (n : nat) : string :=
  match n with
  | O => EmptyString
  | S n => String "0" (zeros n)
  end.

(** [String(n)], [`${n}`] for the double nearest to the integer [n]: the
    fewest digits that give the number back, followed by zeros up to
    [10^21], and from there on with an exponent. Up to [2^53] these are
    the digits of [n]. *)
Definition number_to_string (n : Z) : string :=
  let x := round53 (Z.abs n) in
  let sign := if n <? 0 then "-" else "" in
  if x <? 2 ^ 53 then pretty n
  else if 2 ^ 1024 <=? x then sign +:+ "Infinity"
  else
    let '(s, e) := shortest 17 x (Z.of_nat (String.length (pretty x))) 1 in
    if e <=? 21
    then sign +:+ pretty s +:+ zeros (Z.to_nat e - String.length (pretty s))
    else
      sign +:+
      match pretty s with
      | String d EmptyString => String d EmptyString
      | String d rest => String d ("." +:+ rest)
      | EmptyString => EmptyString
      end +:+ "e+" +:+ pretty (e - 1).

Definition hex_digit (n : Z) : ascii :=
  ascii_of_nat (Z.to_nat (if n <? 10 then 48 + n else 55 + n)).

Definition unreserved (c : ascii) : bool :=
  let n := Z.of_nat (nat_of_ascii c) in
  ((48 <=? n) && (n <=? 57)) || ((65 <=? n) && (n <=? 90)) ||
  ((97 <=? n) && (n <=? 122)) ||
  bool_decide (n ∈ [45; 95; 46; 33; 126; 42; 39; 40; 41]).

(** Every byte of the UTF-8 text outside [A-Z a-z 0-9 - _ . ! ~ * ' ( )]
    percent-escaped. *)
Fixpoint escape (s : string) : string :=
  match s with
  | EmptyString => EmptyString
  | String c rest =>
      let n := Z.of_nat (nat_of_ascii c) in
      if unreserved c then String c (escape rest)
      else String "%" (String (hex_digit (n / 16)) (String (hex_digit (n mod 16))
             (escape rest)))
  end.

(** The string holds a surrogate that is not part of a pair: the bytes of
    a code from [0xD800] to [0xDFFF]. *)
Fixpoint lone_surrogate (s : string) : bool :=
  match s with
  | String b1 rest =>
      match rest with
      | String b2 _ => (byte b1 =? 237) && (160 <=? byte b2)
      | EmptyString => false
      end || lone_surrogate rest
  | EmptyString => false
  end.

(** [encodeURIComponent(s)]; [None] when it throws a [URIError], which it
    does on a surrogate that is not part of a pair. *)
Definition encodeURIComponent (s : string) : option string :=
  if lone_surrogate s then None else Some (escape s).

(** The double quote character, for template literals that contain one. *)
Definition dquote : string := String (ascii_of_nat 34) EmptyString.

End Js.

(** ** Error classes (utils.js) *)

Module Errors.
Import Js.

(** A thrown error object, with the properties the code reads. *)
Record error := {
  name : string;
  message : string;
  code : value;
  statusCode : value;
  isNetworkError : bool;
  isBusinessError : bool
}.

(** [new NetworkError(message, statusCode = null)]. *)
Definition NetworkError (message : string) (statusCode : value) : error :=
  {| name := "NetworkError";
     message := message;
     code := JUndefined;
     statusCode := default_null statusCode;
     isNetworkError := true;
     isBusinessError := false |}.

(** [new BusinessError(message, code = null, statusCode = null)]. *)
Definition BusinessError (message : string) (code statusCode : value) : error :=
  {| name := "BusinessError";
     message := message;
     code := default_null code;
     statusCode := default_null statusCode;
     isNetworkError := false;
     isBusinessError := true |}.

(** An error raised by the platform ([TypeError], [SyntaxError], the
    [AbortError] of an aborted fetch): none of the two flags is defined. *)
Definition platform_error (name message : string) : error :=
  {| name := name;
     message := message;
     code := JUndefined;
     statusCode := JUndefined;
     isNetworkError := false;
     isBusinessError := false |}.

(** The error [encodeURIComponent] throws. *)
Definition URIError : error := platform_error "URIError" "URI malformed".

(** How an asynchronous function completes. *)
Inductive completion (A : Type) :=
| Returned (a : A)
| Thrown (e : error).
Arguments Returned {A} a.
Arguments Thrown {A} e.

End Errors.

(** ** class CacheWithTTL (utils.js) *)

Module CacheWithTTL.
Import Js.

Record entry := { value : Js.value; expiresAt : Z }.

Record t := { cache : gmap string entry; ttlMs : Z }.

(** [new CacheWithTTL(ttlMs = 60000)]. *)
Definition new (ttl : option Z) : t :=
  {| cache := ∅; ttlMs := default 60000 ttl |}.

Definition set (now : Z) (key : string) (v : Js.value) (c : t) : t :=
  let expiresAt := now + ttlMs c in
  {| cache := <[key := {| value := v; expiresAt := expiresAt |}]> (cache c);
     ttlMs := ttlMs c |}.

Definition get (now : Z) (key : string) (c : t) : Js.value * t :=
  match cache c !! key with
  | None => (JNull, c)
  | Some cached =>
      if expiresAt cached <? now
      then (JNull, {| cache := delete key (cache c); ttlMs := ttlMs c |})
      else (value cached, c)
  end.

Definition has (now : Z) (key : string) (c : t) : bool * t :=
  let '(v, c') := get now key c in (not_null v, c').

Definition clear (c : t) : t := {| cache := ∅; ttlMs := ttlMs c |}.

Record info := { isExpired : bool; remainingMs : Z; remainingSec : Z }.

(** [Math.ceil(a / 1000)] on an integer [a]. *)
Definition ceil_div (a b : Z) : Z := - ((- a) / b).

Definition getCacheInfo (now : Z) (key : string) (c : t) : option info :=
  match cache c !! key with
  | None => None
  | Some cached =>
      let isExpired := expiresAt cached <? now in
      let remainingMs := if isExpired then 0 else expiresAt cached - now in
      Some {| isExpired := isExpired;
              remainingMs := remainingMs;
              remainingSec := ceil_div remainingMs 1000 |}
  end.


End CacheWithTTL.

(** ** class ETagCache (utils.js) *)

Module ETagCache.
Import Js.

Record entry := { etag : string; data : Js.value; timestamp : Z }.

Record t := { cache : gmap string entry }.

Definition new : t := {| cache := ∅ |}.

Definition set (now : Z) (url etag : string) (data : Js.value) (c : t) : t :=
  {| cache := <[url := {| etag := etag; data := data; timestamp := now |}]>
                (cache c) |}.

(** [cached ? cached.etag : null]; [None] is [null]. *)
Definition getETag (url : string) (c : t) : option string :=
  match cache c !! url with
  | Some cached => Some (etag cached)
  | None => None
  end.

Definition getData (url : string) (c : t) : Js.value :=
  match cache c !! url with
  | Some cached => data cached
  | None => JNull
  end.

Definition has (url : string) (c : t) : bool :=
  bool_decide (is_Some (cache c !! url)).

Definition clear (c : t) : t := {| cache := ∅ |}.

Record info := { hasETag : bool; stored_at : Z; age : Z }.

(** [{ hasETag: !!cached.etag, timestamp: cached.timestamp,
       age: Date.now() - cached.timestamp }]; the [timestamp] property is
    the field [stored_at]. *)
Definition getCacheInfo (now : Z) (url : string) (c : t) : option info :=
  match cache c !! url with
  | None => None
  | Some cached =>
      Some {| hasETag := negb (String.eqb (etag cached) "");
              stored_at := timestamp cached;
              age := now - timestamp cached |}
  end.

End ETagCache.

(** ** The platform's [fetch] and its responses *)

Module Headers.

Definition t := list (string * string).

Definition lower (c : ascii) : ascii :=
  let n := nat_of_ascii c in
  if ((65 <=? n)%nat && (n <=? 90)%nat)%bool then ascii_of_nat (n + 32) else c.

Fixpoint lowercase (s : string) : string :=
  match s with
  | EmptyString => EmptyString
  | String c rest => String (lower c) (lowercase rest)
  end.

Fixpoint join (sep : string) (l : list string) : string :=
  match l with
  | [] => ""
  | [x] => x
  | x :: l' => x +:+ sep +:+ join sep l'
  end.

(** [headers.get(name)]: names compare case-insensitively, the values of
    a repeated header are joined; [None] is [null]. *)
Definition get (name : string) (h : t) : option string :=
  match filter (fun kv => lowercase kv.1 = lowercase name) h with
  | [] => None
  | found => Some (join ", " (snd <$> found))
  end.

End Headers.

Module Response.
Import Js Errors.

(** A response as [fetch] resolves it. [json] is what [response.json()]
    settles to: the parsed body, or the error it rejects with. *)
Record t := {
  status : Z;
  statusText : string;
  headers : Headers.t;
  json : Js.value + error
}.

(** [response.ok]. *)
Definition ok (r : t) : bool := (200 <=? status r) && (status r <=? 299).

End Response.

(** ** fetchWithRetry (utils.js) *)

Module Fetch.
Import Js Errors.

(** What [await fetch(url, { signal, headers })] settles to. *)
Inductive settled :=
| Resolved (r : Response.t)
| Rejected (e : error).

(** The network seen by one call: the outcome of its [attempt]-th request,
    given the URL and the request headers. The per-attempt timer and the
    signal combined from it and the caller's act on the call only through
    this outcome: a request aborted by either is [Rejected] with an error
    named ["AbortError"]. Console output is not recorded. *)
Definition network := nat -> string -> Headers.t -> settled.

(** The caller's [AbortSignal]: its [aborted] flag as read when the
    [attempt]-th request has failed. *)
Definition AbortSignal := nat -> bool.

Record options := {
  retries : Z;
  backoffMs : Z;
  timeoutMs : Z;
  signal : option AbortSignal;
  headers : Headers.t
}.

(** [{ retries = 2, backoffMs = 500, timeoutMs = 5000, signal = null,
       headers = {} } = {}]. *)
Definition defaults : options :=
  {| retries := 2; backoffMs := 500; timeoutMs := 5000; signal := None;
     headers := [] |}.

(** The object a successful call returns. *)
Record fetched := {
  data : Js.value;
  fetched_headers : Headers.t;
  fetched_status : Z
}.

(** Observable effects, in program order. *)
Inductive event :=
| EvFetch (url : string) (headers : Headers.t)
| EvSleep (ms : Z).

Definition CANCELLED : string := "Запрос был отменен".

(** Number of requests sent, and total time slept, in a list of events. *)
Definition requests (evs : list event) : nat :=
  foldr (fun ev acc => match ev with EvFetch _ _ => S acc | _ => acc end) O evs.

Definition slept (evs : list event) : Z :=
  foldr (fun ev acc => match ev with EvSleep ms => ms + acc | _ => acc end) 0 evs.

(** The [throw] selected by [if (!response.ok) { ... }]. *)
Definition classify (r : Response.t) : error :=
  let status := Response.status r in
  if 500 <=? status then
    NetworkError
      ("Ошибка сервера " +:+ pretty status +:+ ": " +:+ Response.statusText r)
      (JNum status)
  else if status =? 404 then
    BusinessError "Ресурс не найден (404)" (JStr "NOT_FOUND") JUndefined
  else if (status =? 401) || (status =? 403) then
    BusinessError ("Ошибка авторизации (" +:+ pretty status +:+ ")")
      (JStr "AUTH_ERROR") JUndefined
  else if status =? 429 then
    BusinessError "Превышен лимит запросов (429)" (JStr "RATE_LIMIT")
      (JNum status)
  else
    NetworkError
      ("HTTP " +:+ pretty status +:+ ": " +:+ Response.statusText r)
      (JNum status).

Section Call.
Variable net : network.
Variable url : string.
Variable opts : options.

(** [signal?.aborted] in the handler of the [attempt]-th request. *)
Definition signal_aborted (attempt : nat) : bool :=
  match signal opts with
  | Some s => s attempt
  | None => false
  end.

(** The [try] block of one iteration. *)
Definition try_block (attempt : nat) : completion fetched :=
  match net attempt url (headers opts) with
  | Rejected e => Thrown e
  | Resolved response =>
      if negb (Response.ok response) then Thrown (classify response)
      else
        match Response.json response with
        | inr e => Thrown e
        | inl data =>
            Returned {| data := data;
                        fetched_headers := Response.headers response;
                        fetched_status := Response.status response |}
        end
  end.

(** The statements after the loop. With no iteration run [lastError] is
    [undefined] and reading its flag throws. *)
Definition after_loop (lastError : option error) : completion fetched :=
  match lastError with
  | None =>
      Thrown (platform_error "TypeError"
        "Cannot read properties of undefined (reading 'isNetworkError')")
  | Some lastError =>
      if isNetworkError lastError || isBusinessError lastError
      then Thrown lastError
      else Thrown (NetworkError
        ("Не удалось выполнить запрос после " +:+ pretty (retries opts + 1)
           +:+ " попыток: " +:+ message lastError) JUndefined)
  end.

Definition run := (completion fetched * list event)%type.

Definition after (evs : list event) (r : option run) : option run :=
  match r with
  | Some (c, evs') => Some (c, (evs ++ evs')%list)
  | None => None
  end.

(** [while (attempt <= retries) { ... }] followed by [after_loop]; [None]
    when [fuel] iterations did not finish the loop. *)
Fixpoint retry_loop (fuel : nat) (attempt : nat) (lastError : option error)
  : option run :=
  if Z.of_nat attempt <=? retries opts then
    match fuel with
    | O => None
    | S fuel =>
        after [EvFetch url (headers opts)]
          match try_block attempt with
          | Returned result => Some (Returned result, [])
          | Thrown error =>
              if signal_aborted attempt || String.eqb (name error) "AbortError"
              then Some (Thrown (NetworkError CANCELLED JUndefined), [])
              else if isBusinessError error then Some (Thrown error, [])
              else if (Z.of_nat attempt <? retries opts) && isNetworkError error
              then
                let delay := backoffMs opts * 2 ^ Z.of_nat attempt in
                after [EvSleep delay]
                  (retry_loop fuel (S attempt) (Some error))
              else Some (after_loop (Some error), [])
          end
    end
  else Some (after_loop lastError, []).

Definition fetchWithRetry : option run :=
  retry_loop (Z.to_nat (retries opts + 1)) 0 None.

(** *** Vocabulary for statements about one iteration *)

(** The [attempt]-th iteration took the back-off branch: its [try] block
    threw, none of the two [throw]s of the handler fired, and the test
    [attempt < retries && error.isNetworkError] held. *)
Definition retried (attempt : nat) : bool :=
  match try_block attempt with
  | Returned _ => false
  | Thrown error =>
      negb (signal_aborted attempt || String.eqb (name error) "AbortError")
      && negb (isBusinessError error)
      && ((Z.of_nat attempt <? retries opts) && isNetworkError error)
  end.

(** Every iteration before the [k]-th one took the back-off branch, which
    is how the loop gets to its [k]-th iteration. *)
Definition reaches (k : nat) : Prop :=
  forall j, (j < k)%nat -> retried j = true.

(** The value of [lastError] at the head of the [k]-th iteration. *)
Definition last_error (k : nat) : option error :=
  match k with
  | O => None
  | S j =>
      match try_block j with
      | Thrown error => Some error
      | Returned _ => None
      end
  end.

(** The events of [k] iterations that all took the back-off branch. *)
Fixpoint rounds (k : nat) : list event :=
  match k with
  | O => []
  | S j =>
      (rounds j ++
       [EvFetch url (headers opts); EvSleep (backoffMs opts * 2 ^ Z.of_nat j)])%list
  end.

End Call.

End Fetch.

(** ** weatherApi.js *)

Module WeatherApi.
Import Js Errors.

Definition API_KEY : string := "bd5e378503939ddaee76f12ad7a97608".
Definition BASE_URL : string := "https://api.openweathermap.org/data/2.5".

(** [const weatherCache = new CacheWithTTL(600000)]. *)
Definition weatherCache : CacheWithTTL.t := CacheWithTTL.new (Some 600000).

(** What a call yields: its completion, the requests and delays it caused,
    and the cache it leaves behind. *)
Definition outcome := (completion object * list Fetch.event * CacheWithTTL.t)%type.

Section Client.
(** [String.prototype.toLowerCase], which follows the Unicode case tables,
    is left abstract. *)
Variable toLowerCase : string -> string.

Definition cacheKey (cityName : string) : string :=
  "weather_" +:+ toLowerCase cityName.

(** The URL around the encoded name. *)
Definition weatherUrlOf (encoded : string) : string :=
  BASE_URL +:+ "/weather?q=" +:+ encoded +:+ "&appid=" +:+ API_KEY +:+ "&lang=ru".

(** The URL for a name that can be encoded. *)
Definition weatherUrl (cityName : string) : string :=
  weatherUrlOf (escape cityName).

(** The [catch] block of [getWeatherByCity]. *)
Definition remap (cityName : string) (error : Errors.error) : Errors.error :=
  if includes "отменен" (message error) || String.eqb (name error) "AbortError"
  then NetworkError "Запрос был отменен" JUndefined
  else if is_str "NOT_FOUND" (code error) || is_num 404 (statusCode error)
  then BusinessError ("Город " +:+ dquote +:+ cityName +:+ dquote +:+ " не найден")
         (JStr "CITY_NOT_FOUND") JUndefined
  else if is_str "AUTH_ERROR" (code error) || is_num 401 (statusCode error)
  then BusinessError "Ошибка API ключа. Используйте свой ключ OpenWeatherMap"
         (JStr "API_KEY_ERROR") JUndefined
  else if is_num 429 (statusCode error)
  then BusinessError
         "Превышен лимит запросов к API. Попробуйте позже или используйте свой API ключ"
         (JStr "RATE_LIMIT_EXCEEDED") JUndefined
  else if isNetworkError error then error
  else NetworkError ("Ошибка загрузки погоды: " +:+ message error) JUndefined.

(** [{ retries: 2, backoffMs: 500, timeoutMs: 5000, signal }]. *)
Definition requestOptions (signal : option Fetch.AbortSignal) : Fetch.options :=
  {| Fetch.retries := 2; Fetch.backoffMs := 500; Fetch.timeoutMs := 5000;
     Fetch.signal := signal; Fetch.headers := Fetch.headers Fetch.defaults |}.

(** [getWeatherByCity(cityName, { ignoreCache = false, signal = null })].
    [t_read] is the clock when the cache is consulted, [t_write] the clock
    when the response is stored. The URL is built after the cache has been
    consulted and before the [try] block, so that the [URIError] of a name
    that cannot be encoded is thrown as it is. *)
Definition getWeatherByCity (net : Fetch.network) (t_read t_write : Z)
    (cityName : string) (ignoreCache : bool) (signal : option Fetch.AbortSignal)
    (cache : CacheWithTTL.t) : option outcome :=
  let cacheKey := cacheKey cityName in
  let '(cached, cache) :=
    if negb ignoreCache then CacheWithTTL.get t_read cacheKey cache
    else (JUndefined, cache) in
  if negb ignoreCache && truthy cached then
    Some (Returned (set_prop "fromCache" (JBool true) (spread cached)), [], cache)
  else
    match encodeURIComponent cityName with
    | None => Some (Thrown URIError, [], cache)
    | Some encoded =>
        let url := weatherUrlOf encoded in
        match Fetch.fetchWithRetry net url (requestOptions signal) with
        | None => None
        | Some (Returned response, evs) =>
            let cache :=
              CacheWithTTL.set t_write cacheKey (Fetch.data response) cache in
            Some (Returned (set_prop "fromCache" (JBool false)
                              (spread (Fetch.data response))), evs, cache)
        | Some (Thrown error, evs) =>
            Some (Thrown (remap cityName error), evs, cache)
        end
    end.

Definition getCacheInfo (now : Z) (cityName : string) (cache : CacheWithTTL.t)
  : option CacheWithTTL.info :=
  CacheWithTTL.getCacheInfo now (cacheKey cityName) cache.

Definition clearCache (cache : CacheWithTTL.t) : CacheWithTTL.t :=
  CacheWithTTL.clear cache.

(** *** getWeatherForMultipleCities

    [cities.map] starts the lookups one after the other, and a lookup runs
    without interruption up to its first [await], that is through its cache
    read and the sending of its first request. So all the cache reads come
    first, in the order of the list; the fetches then proceed concurrently,
    and a lookup stores its payload when its own fetch has succeeded. The
    order in which the fetches complete is given by [finishes], the list of
    the positions of the lookups in that order. *)

(** The cache read of one lookup. *)
Definition read_cache (t_read : Z) (cityName : string) (ignoreCache : bool)
    (cache : CacheWithTTL.t) : value * CacheWithTTL.t :=
  if negb ignoreCache then CacheWithTTL.get t_read (cacheKey cityName) cache
  else (JUndefined, cache).


(** A lookup from its cache read on: its completion, its events, and the
    payload it stores, if any. *)
Definition settle (net : Fetch.network) (cityName : string)
    (ignoreCache : bool) (signal : option Fetch.AbortSignal) (cached : value)
  : option (completion object * list Fetch.event * option value) :=
  if negb ignoreCache && truthy cached then
    Some (Returned (set_prop "fromCache" (JBool true) (spread cached)), [], None)
  else
    match encodeURIComponent cityName with
    | None => Some (Thrown URIError, [], None)
    | Some encoded =>
        match Fetch.fetchWithRetry net (weatherUrlOf encoded)
                (requestOptions signal) with
        | None => None
        | Some (Returned response, evs) =>
            Some (Returned (set_prop "fromCache" (JBool false)
                              (spread (Fetch.data response))), evs,
                  Some (Fetch.data response))
        | Some (Thrown error, evs) =>
            Some (Thrown (remap cityName error), evs, None)
        end
    end.

(** [.then(data => ({ success: true, city, data }))
     .catch(error => ({ success: false, city, error: error.message }))]. *)
Definition entry (city : string) (c : completion object) : object :=
  match c with
  | Returned data =>
      [("success", JBool true); ("city", JStr city); ("data", JObj data)]
  | Thrown error =>
      [("success", JBool false); ("city", JStr city);
       ("error", JStr (message error))]
  end.




End Client.

End WeatherApi.

(** ** mockApi.js *)

Module MockApi.
Import Js Errors.

Definition MOCK_API_URL : string := "http://localhost:3001".

(** [const etagCache = new ETagCache()]. *)
Definition etagCache : ETagCache.t := ETagCache.new.

Definition outcome := (completion object * list Fetch.event * ETagCache.t)%type.

Definition citiesUrl (page limit : Z) : string :=
  MOCK_API_URL +:+ "/cities?_page=" +:+ number_to_string page
    +:+ "&_limit=" +:+ number_to_string limit.

(** The request headers prepared before the call. *)
Definition conditional_headers (useETag : bool) (url : string)
    (cache : ETagCache.t) : Headers.t :=
  if useETag && ETagCache.has url cache then
    match ETagCache.getETag url cache with
    | Some etag => if negb (String.eqb etag "") then [("If-None-Match", etag)] else []
    | None => []
    end
  else [].

(** [response.data.length]. *)
Definition length_of (data : value) : completion value :=
  match data with
  | JArr items => Returned (JNum (Z.of_nat (List.length items)))
  | JStr s => Returned (JNum (str_length s))
  | JObj props => Returned (get_prop "length" props)
  | JNull =>
      Thrown (platform_error "TypeError"
                "Cannot read properties of null (reading 'length')")
  | JUndefined =>
      Thrown (platform_error "TypeError"
                "Cannot read properties of undefined (reading 'length')")
  | _ => Returned JUndefined
  end.

(** The [catch] block of [getCitiesPaginated]. *)
Definition rethrow (error : Errors.error) : Errors.error :=
  if isNetworkError error then error
  else if isBusinessError error then error
  else NetworkError ("Ошибка при загрузке городов: " +:+ message error) JUndefined.

(** [getCitiesPaginated({ page = 1, limit = 10, signal = null,
    useETag = true })]; [now] is the clock when the page is stored. *)
Definition getCitiesPaginated (net : Fetch.network) (now : Z) (page limit : Z)
    (signal : option Fetch.AbortSignal) (useETag : bool) (cache : ETagCache.t)
  : option outcome :=
  let url := citiesUrl page limit in
  let headers := conditional_headers useETag url cache in
  match Fetch.fetchWithRetry net url
          {| Fetch.retries := 2; Fetch.backoffMs := 500;
             Fetch.timeoutMs := 5000; Fetch.signal := signal;
             Fetch.headers := headers |} with
  | None => None
  | Some (Thrown error, evs) => Some (Thrown (rethrow error), evs, cache)
  | Some (Returned response, evs) =>
      if Fetch.fetched_status response =? 304 then
        let cachedData := ETagCache.getData url cache in
        Some (Returned (set_prop "cacheHit" (JBool true)
                (set_prop "fromCache" (JBool true) (spread cachedData))),
              evs, cache)
      else
        let etag := Headers.get "ETag" (Fetch.fetched_headers response) in
        let linkHeader := Headers.get "Link" (Fetch.fetched_headers response) in
        let totalCount :=
          Headers.get "X-Total-Count" (Fetch.fetched_headers response) in
        let total :=
          match totalCount with
          | Some s => if negb (String.eqb s "") then Returned (parseInt s)
                      else length_of (Fetch.data response)
          | None => length_of (Fetch.data response)
          end in
        match total with
        | Thrown error => Some (Thrown (rethrow error), evs, cache)
        | Returned total =>
            let hasMore :=
              match linkHeader with
              | Some l => if negb (String.eqb l "")
                          then includes ("rel=" +:+ dquote +:+ "next" +:+ dquote) l
                          else false
              | None => false
              end in
            let result :=
              [("data", Fetch.data response); ("page", JNum page);
               ("limit", JNum limit); ("total", total);
               ("hasMore", JBool hasMore); ("fromCache", JBool false);
               ("cacheHit", JBool false)] in
            let cache :=
              match etag with
              | Some etag =>
                  if useETag && negb (String.eqb etag "")
                  then ETagCache.set now url etag (JObj result) cache
                  else cache
              | None => cache
              end in
            Some (Returned result, evs, cache)
        end
  end.

Definition clearETagCache (cache : ETagCache.t) : ETagCache.t :=
  ETagCache.clear cache.

(** The URL around the encoded query. *)
Definition searchUrlOf (encoded : string) : string :=
  MOCK_API_URL +:+ "/cities?name_like=" +:+ encoded.

(** The URL for a query that can be encoded. *)
Definition searchUrl (query : string) : string :=
  searchUrlOf (escape query).

(** [{ retries: 1, timeoutMs: 5000, signal }]. *)
Definition searchOptions (signal : option Fetch.AbortSignal) : Fetch.options :=
  {| Fetch.retries := 1; Fetch.backoffMs := Fetch.backoffMs Fetch.defaults;
     Fetch.timeoutMs := 5000; Fetch.signal := signal;
     Fetch.headers := Fetch.headers Fetch.defaults |}.

(** [searchCities(query, { signal = null })]. The URL is built before the
    [try] block: the [URIError] of a query that cannot be encoded is thrown
    as it is. *)
Definition searchCities (net : Fetch.network) (query : string)
    (signal : option Fetch.AbortSignal)
  : option (completion object * list Fetch.event) :=
  match encodeURIComponent query with
  | None => Some (Thrown URIError, [])
  | Some encoded =>
      let url := searchUrlOf encoded in
      match Fetch.fetchWithRetry net url (searchOptions signal) with
      | None => None
      | Some (Returned response, evs) =>
          match length_of (Fetch.data response) with
          | Returned count =>
              Some (Returned [("data", Fetch.data response); ("count", count)],
                    evs)
          | Thrown error =>
              Some (Thrown (if isNetworkError error then error
                            else NetworkError ("Ошибка поиска городов: "
                                                 +:+ message error) JUndefined),
                    evs)
          end
      | Some (Thrown error, evs) =>
          Some (Thrown (if isNetworkError error then error
                        else NetworkError ("Ошибка поиска городов: "
                                             +:+ message error) JUndefined),
                evs)
      end
  end.

Definition cityUrl (id : Z) : string :=
  MOCK_API_URL +:+ "/cities/" +:+ number_to_string id.

(** [{ retries: 1, timeoutMs: 3000 }]. *)
Definition cityOptions : Fetch.options :=
  {| Fetch.retries := 1; Fetch.backoffMs := Fetch.backoffMs Fetch.defaults;
     Fetch.timeoutMs := 3000; Fetch.signal := Fetch.signal Fetch.defaults;
     Fetch.headers := Fetch.headers Fetch.defaults |}.

(** [getCityById(id)]. *)
Definition getCityById (net : Fetch.network) (id : Z)
  : option (completion value * list Fetch.event) :=
  let url := cityUrl id in
  match Fetch.fetchWithRetry net url cityOptions with
  | None => None
  | Some (Returned response, evs) => Some (Returned (Fetch.data response), evs)
  | Some (Thrown error, evs) =>
      if is_str "NOT_FOUND" (code error)
      then Some (Thrown (BusinessError
                           ("Город с ID " +:+ number_to_string id +:+ " не найден")
                           (JStr "CITY_NOT_FOUND") JUndefined), evs)
      else Some (Thrown error, evs)
  end.

End MockApi.

(** ** main.js: the search history *)

Module Main.

(** [addToHistory(cityName)] on [state.searchHistory]: a name not yet in the
    list is put in front ([unshift]) and, beyond ten entries, the last one is
    dropped ([pop]). *)
Definition addToHistory (cityName : string) (searchHistory : list string)
  : list string :=
  if bool_decide (cityName ∈ searchHistory) then searchHistory
  else
    let searchHistory := cityName :: searchHistory in
    if (10 <? List.length searchHistory)%nat then removelast searchHistory
    else searchHistory.

End Main.

(** ** Concrete servers and responses *)

Module Examples.
Import Js Errors Fetch.

Definition respond (status : Z) (statusText : string) (headers : Headers.t)
    (body : value) : Response.t :=
  {| Response.status := status; Response.statusText := statusText;
     Response.headers := headers; Response.json := inl body |}.

(** A response without a body: [response.json()] rejects. *)
Definition bodiless (status : Z) (statusText : string) (headers : Headers.t)
  : Response.t :=
  {| Response.status := status; Response.statusText := statusText;
     Response.headers := headers;
     Response.json := inr (platform_error "SyntaxError" "Unexpected end of JSON input") |}.

Definition server_error : Response.t :=
  respond 500 "Internal Server Error" [] (JObj []).
Definition not_found : Response.t := respond 404 "Not Found" [] (JObj []).
Definition too_many : Response.t := respond 429 "Too Many Requests" [] (JObj []).
Definition not_modified : Response.t :=
  bodiless 304 "Not Modified" [("ETag", "v1")].

(** A weather payload; the temperature is 280.1875. *)
Definition moscow : value :=
  JObj [("name", JStr "Moscow"); ("main", JObj [("temp", JFrac 4483 (-4))])].
Definition weather_ok : Response.t := respond 200 "OK" [] moscow.

Definition cities : value :=
  JArr [JObj [("id", JNum 1); ("name", JStr "Minsk")];
        JObj [("id", JNum 2); ("name", JStr "Brest")]].
Definition page_one : Response.t :=
  respond 200 "OK" [("ETag", "v1"); ("X-Total-Count", "25")] cities.

Definition always (r : Response.t) : network := fun _ _ _ => Resolved r.

(** 500 on the first two requests, then the weather payload. *)
Definition flaky : network :=
  fun attempt _ _ =>
    if (attempt <? 2)%nat then Resolved server_error else Resolved weather_ok.

(** No connectivity: [fetch] rejects with a [TypeError]. *)
Definition offline : network :=
  fun _ _ _ => Rejected (platform_error "TypeError" "Failed to fetch").

(** Every request runs into the per-attempt timeout and is aborted. *)
Definition timing_out : network :=
  fun _ _ _ => Rejected (platform_error "AbortError" "The operation was aborted.").

(** Serves page one with validator [v1]; answers 304 to a request that
    carries [If-None-Match: v1]. *)
Definition conditional : network :=
  fun _ _ headers =>
    match Headers.get "If-None-Match" headers with
    | Some etag => if String.eqb etag "v1" then Resolved not_modified
                   else Resolved page_one
    | None => Resolved page_one
    end.

(** A caller's signal that fires while the [n]-th request is in flight. *)
Definition fires_at (n : nat) : AbortSignal := fun attempt => (n <=? attempt)%nat.

(** The page-one result of [getCitiesPaginated] against [conditional], and
    the ETag cache once that result is stored at time 1000. *)
Definition first_page : object :=
  [("data", cities); ("page", JNum 1); ("limit", JNum 10); ("total", JNum 25);
   ("hasMore", JBool false); ("fromCache", JBool false);
   ("cacheHit", JBool false)].

Definition stored : ETagCache.t :=
  ETagCache.set 1000 (MockApi.citiesUrl 1 10) "v1" (JObj first_page)
    MockApi.etagCache.

(** A 200 answer with an empty body. *)
Definition broken_body : Response.t := bodiless 200 "OK" [].

Definition with_retries (n : Z) (signal : option AbortSignal) : options :=
  {| retries := n; backoffMs := backoffMs defaults;
     timeoutMs := timeoutMs defaults; signal := signal;
     headers := headers defaults |}.

End Examples.

(** * Properties *)

(** ** The TTL cache *)

Section TTLCache.
Import Js CacheWithTTL.

Lemma get_fresh (c : CacheWithTTL.t) k v t t' :
  t' <= t + ttlMs c -> get t' k (set t k v c) = (v, set t k v c).
Proof.
  intros Hle. unfold get, set; cbn.
  rewrite lookup_insert_eq; cbn.
  destruct (Z.ltb_spec (t + ttlMs c) t') as [Hlt | _]; [lia | reflexivity].
Qed.

Lemma get_stale (c : CacheWithTTL.t) k v t t' :
  t + ttlMs c < t' ->
  get t' k (set t k v c) =
    (JNull, {| cache := delete k (cache c); ttlMs := ttlMs c |}).
Proof.
  intros Hlt. unfold get, set; cbn.
  rewrite lookup_insert_eq; cbn.
  destruct (Z.ltb_spec (t + ttlMs c) t') as [_ | Hle]; [| lia].
  by rewrite delete_insert_eq.
Qed.

Lemma get_absent (c : CacheWithTTL.t) k t :
  cache c !! k = None -> get t k c = (JNull, c).
Proof. intros Hk. unfold get. by rewrite Hk. Qed.

Lemma has_get (c : CacheWithTTL.t) k t :
  has t k c = (not_null (get t k c).1, (get t k c).2).
Proof. unfold has. by destruct (get t k c). Qed.

Lemma not_null_true (v : Js.value) : not_null v = true <-> v <> JNull.
Proof. destruct v; cbn; split; congruence. Qed.

Lemma has_live (c : CacheWithTTL.t) k v t t' :
  t' <= t + ttlMs c -> v <> JNull -> has t' k (set t k v c) = (true, set t k v c).
Proof.
  intros Hle Hv. rewrite has_get, get_fresh by done. cbn [fst snd].
  by rewrite (proj2 (not_null_true v) Hv).
Qed.

(** C7, as stated, fails in a cache built with a negative TTL: the entry
    stored at time [1000] expires at [999], so the [get] that follows at
    once answers [null], not the value stored. *)
Lemma negative_ttl_expires_at_once :
  let c := CacheWithTTL.new (Some (-1)) in
  let c1 := set 1000 "k" (JNum 7) c in
  ((get 1000 "k" c1).1 = JNull) /\
  ((get 1000 "k" c1).1 <> JNum 7) /\
  (cache (get 1000 "k" c1).2 !! "k" = None).
Proof. cbn. repeat split. discriminate. Qed.

(** C7, amended. In a cache whose TTL is not negative: after [set(k, v)] at
    time [t], [get(k)] returns [v] immediately and at any time [t1] up to
    the expiry [t + ttlMs], leaving the store as it is; at any time [t2]
    past the expiry, [get(k)] returns [null] and deletes the entry, so that
    [k] is no longer in the store. [has(k)] is [get(k) !== null]: it leaves
    the store [get] leaves and answers [true] exactly when [get] does not
    answer [null]; so it answers [true] on the live entry of a value other
    than [null], and on the expired entry it answers [false] and evicts
    too, and stays [false] afterwards. *)
Theorem ttl_cache_contract (c : CacheWithTTL.t) k v t t1 t2 :
  0 <= ttlMs c ->
  t <= t1 <= t + ttlMs c ->
  t + ttlMs c < t2 ->
  let c1 := set t k v c in
  let evicted := {| cache := delete k (cache c); ttlMs := ttlMs c |} in
  get t k c1 = (v, c1) /\
  get t1 k c1 = (v, c1) /\
  get t2 k c1 = (JNull, evicted) /\
  cache evicted !! k = None /\
  (forall t0 c0,
     (has t0 k c0).2 = (get t0 k c0).2 /\
     ((has t0 k c0).1 = true <-> (get t0 k c0).1 <> JNull)) /\
  (v <> JNull -> has t k c1 = (true, c1) /\ has t1 k c1 = (true, c1)) /\
  (v = JNull -> has t k c1 = (false, c1) /\ has t1 k c1 = (false, c1)) /\
  has t2 k c1 = (false, evicted) /\
  (forall t3, has t3 k (get t2 k c1).2 = (false, evicted)).
Proof.
  intros Httl Hin Hout c1 evicted. subst c1.
  assert (Hgone : cache evicted !! k = None) by apply lookup_delete_eq.
  split; [apply get_fresh; lia |].
  split; [apply get_fresh; lia |].
  split; [by apply get_stale |].
  split; [exact Hgone |].
  split.
  { intros t0 c0. rewrite has_get. cbn [fst snd].
    split; [reflexivity | apply not_null_true]. }
  split.
  { intros Hv. split; apply has_live; [lia | done | lia | done]. }
  split.
  { intros ->. by rewrite !has_get, !get_fresh by lia. }
  split; [by rewrite has_get, get_stale |].
  intros t3. rewrite get_stale by done. cbn [snd].
  by rewrite has_get, get_absent.
Qed.

Lemma ttl_cache_contract_witness :
  let c := CacheWithTTL.new None in
  let c1 := set 1000 "k" (JNum 7) c in
  0 <= ttlMs c /\
  (1000 <= 61000 <= 1000 + ttlMs c) /\
  (1000 + ttlMs c < 61001) /\
  get 1000 "k" c1 = (JNum 7, c1) /\
  get 61000 "k" c1 = (JNum 7, c1) /\
  has 1000 "k" c1 = (true, c1) /\
  has 61000 "k" c1 = (true, c1) /\
  (get 61001 "k" c1).1 = JNull /\
  cache (get 61001 "k" c1).2 !! "k" = None /\
  (has 61001 "k" c1).1 = false /\
  cache (has 61001 "k" c1).2 !! "k" = None.
Proof.
  intros c c1.
  assert (H0 : 0 <= ttlMs c) by (cbn; lia).
  assert (H1 : 1000 <= 61000 <= 1000 + ttlMs c) by (cbn; lia).
  assert (H2 : 1000 + ttlMs c < 61001) by (cbn; lia).
  assert (H3 : JNum 7 <> JNull) by discriminate.
  destruct (ttl_cache_contract c "k" (JNum 7) 1000 61000 61001 H0 H1 H2)
    as (Hnow & Hlater & Hlate & Hgone & _ & Hlive & _ & Hhas & _).
  destruct (Hlive H3) as [Hhas0 Hhas1].
  split; [exact H0 |]. split; [exact H1 |]. split; [exact H2 |].
  split; [exact Hnow |]. split; [exact Hlater |].
  split; [exact Hhas0 |]. split; [exact Hhas1 |].
  fold c1 in Hlate, Hhas. rewrite Hlate, Hhas. cbn [fst snd].
  split; [reflexivity |]. split; [exact Hgone |].
  split; [reflexivity | exact Hgone].
Defined.

(** C9, as stated, fails: [getCacheInfo], which is part of the public
    interface of the cache, tells a stored [null] from an absent entry. It
    returns a record for the first and [null] for the second. *)
Lemma cache_info_tells_stored_null :
  let c := CacheWithTTL.new None in
  let c1 := set 0 "k" JNull c in
  (cache c !! "k" = None) /\
  (get 5 "k" c = (JNull, c)) /\
  (get 5 "k" c1 = (JNull, c1)) /\
  (getCacheInfo 5 "k" c = None) /\
  (getCacheInfo 5 "k" c1
     = Some {| isExpired := false; remainingMs := 59995; remainingSec := 60 |}) /\
  (getCacheInfo 5 "k" c1 <> getCacheInfo 5 "k" c).
Proof. cbn. repeat split. discriminate. Qed.

Lemma info_fresh (c : CacheWithTTL.t) k v t t' :
  t' <= t + ttlMs c ->
  getCacheInfo t' k (set t k v c)
    = Some {| isExpired := false;
              remainingMs := t + ttlMs c - t';
              remainingSec := ceil_div (t + ttlMs c - t') 1000 |}.
Proof.
  intros Hle. unfold getCacheInfo, set; cbn.
  rewrite lookup_insert_eq; cbn.
  by destruct (Z.ltb_spec (t + ttlMs c) t') as [Hlt | _]; [lia |].
Qed.

(** C9, amended. After [set(k, null)], before the entry expires, [get(k)]
    returns [null] and [has(k)] returns [false] although the entry is still
    in the store; they answer so at any later time too, and these are the
    answers both give for a key that was never set: through [get] and [has]
    a stored [null] cannot be told from an absent entry. Through
    [getCacheInfo] it can: before the entry expires it returns a record,
    not expired and with the time that remains, where it returns [null]
    for a key that was never set. *)
Theorem stored_null_reads_as_absent (c c0 : CacheWithTTL.t) k t t' t'' :
  t' <= t + ttlMs c ->
  cache c0 !! k = None ->
  let c1 := set t k JNull c in
  get t' k c1 = (JNull, c1) /\
  has t' k c1 = (false, c1) /\
  cache c1 !! k = Some {| value := JNull; expiresAt := t + ttlMs c |} /\
  (get t'' k c1).1 = JNull /\
  (has t'' k c1).1 = false /\
  (get t' k c0).1 = (get t' k c1).1 /\
  (has t' k c0).1 = (has t' k c1).1 /\
  getCacheInfo t' k c0 = None /\
  getCacheInfo t' k c1
    = Some {| isExpired := false;
              remainingMs := t + ttlMs c - t';
              remainingSec := ceil_div (t + ttlMs c - t') 1000 |}.
Proof.
  intros Hle Habs c1. subst c1.
  assert (Hany : (get t'' k (set t k JNull c)).1 = JNull).
  { destruct (Z.le_gt_cases t'' (t + ttlMs c)) as [Hin | Hout].
    - by rewrite get_fresh.
    - by rewrite get_stale by lia. }
  rewrite !has_get, Hany, (get_fresh c k JNull t t' Hle),
    (get_absent c0 k t' Habs).
  split; [reflexivity |]. split; [reflexivity |].
  split; [cbn; apply lookup_insert_eq |].
  split; [reflexivity |]. split; [reflexivity |].
  split; [reflexivity |]. split; [reflexivity |].
  split; [unfold getCacheInfo; by rewrite Habs | by apply info_fresh].
Qed.

Lemma stored_null_reads_as_absent_witness :
  let c := CacheWithTTL.new (Some 600000) in
  let c1 := set 0 "k" JNull c in
  (5 <= 0 + ttlMs c) /\
  cache c !! "k" = None /\
  get 5 "k" c1 = (JNull, c1) /\
  has 5 "k" c1 = (false, c1) /\
  (get 5 "k" c).1 = (get 5 "k" c1).1 /\
  (has 5 "k" c).1 = (has 5 "k" c1).1 /\
  getCacheInfo 5 "k" c = None /\
  getCacheInfo 5 "k" c1
    = Some {| isExpired := false; remainingMs := 599995; remainingSec := 600 |}.
Proof.
  intros c c1.
  assert (H1 : 5 <= 0 + ttlMs c) by (cbn; lia).
  assert (H2 : cache c !! "k" = None) by reflexivity.
  destruct (stored_null_reads_as_absent c c "k" 0 5 700000 H1 H2)
    as (Hg & Hh & _ & _ & _ & Hget & Hhas & Hnone & Hinfo).
  split; [exact H1 |]. split; [exact H2 |]. split; [exact Hg |].
  split; [exact Hh |]. split; [exact Hget |]. split; [exact Hhas |].
  split; [exact Hnone | exact Hinfo].
Defined.

End TTLCache.

(** ** The retry loop *)

Section RetryLoop.
Import Js Errors Fetch.
Variable net : network.
Variable url : string.
Variable opts : options.

#[local] Abbreviation loop := (retry_loop net url opts).
#[local] Abbreviation request := (EvFetch url (headers opts)).

Lemma after_app evs evs' (r : option run) :
  after evs (after evs' r) = after (evs ++ evs')%list r.
Proof. destruct r as [[c t] |]; cbn; [by rewrite app_assoc | done]. Qed.

Lemma after_nil (r : option run) : after [] r = r.
Proof. by destruct r as [[c t] |]. Qed.

(** One unfolding of the loop when its test holds. *)
Lemma loop_body fuel k lastError :
  Z.of_nat k <= retries opts ->
  loop (S fuel) k lastError =
    after [request]
      match try_block net url opts k with
      | Returned result => Some (Returned result, [])
      | Thrown error =>
          if signal_aborted opts k || String.eqb (name error) "AbortError"
          then Some (Thrown (NetworkError CANCELLED JUndefined), [])
          else if isBusinessError error then Some (Thrown error, [])
          else if (Z.of_nat k <? retries opts) && isNetworkError error
          then after [EvSleep (backoffMs opts * 2 ^ Z.of_nat k)]
                 (loop fuel (S k) (Some error))
          else Some (after_loop opts (Some error), [])
      end.
Proof.
  intros Hk. cbn [retry_loop].
  destruct (Z.leb_spec (Z.of_nat k) (retries opts)); [reflexivity | lia].
Qed.



Lemma retried_lt k : retried net url opts k = true -> Z.of_nat k < retries opts.
Proof.
  unfold retried. destruct (try_block net url opts k); [done |].
  rewrite !andb_true_iff, Z.ltb_lt. tauto.
Qed.

(** An iteration that took the back-off branch: request, delay, next one. *)
Lemma loop_retried fuel k lastError :
  retried net url opts k = true ->
  loop (S fuel) k lastError =
    after [request; EvSleep (backoffMs opts * 2 ^ Z.of_nat k)]
      (loop fuel (S k) (last_error net url opts (S k))).
Proof.
  intros Hr. pose proof (retried_lt k Hr) as Hlt.
  rewrite loop_body by lia. unfold retried in Hr. cbn [last_error].
  destruct (try_block net url opts k) as [result | error]; [done |].
  apply andb_true_iff in Hr as [Hr Hnet].
  apply andb_true_iff in Hr as [Hcancel Hbusiness].
  apply negb_true_iff in Hcancel, Hbusiness.
  rewrite Hcancel, Hbusiness, Hnet. by rewrite after_app.
Qed.

(** The loop run up to the head of its [k]-th iteration. *)
Lemma loop_reaches k fuel :
  reaches net url opts k ->
  loop (k + fuel) 0 None =
    after (rounds url opts k) (loop fuel k (last_error net url opts k)).
Proof.
  revert fuel. induction k as [| k IH]; intros fuel Hreach.
  - cbn. by rewrite after_nil.
  - replace (S k + fuel)%nat with (k + S fuel)%nat by lia.
    rewrite IH by (intros j Hj; apply Hreach; lia).
    rewrite (loop_retried fuel k) by (apply Hreach; lia).
    by rewrite after_app.
Qed.

(** The whole call, seen from its [k]-th iteration. *)
Lemma fetchWithRetry_reaches k :
  reaches net url opts k ->
  Z.of_nat k <= retries opts ->
  exists fuel,
    fetchWithRetry net url opts =
      after (rounds url opts k)
        (loop (S fuel) k (last_error net url opts k)).
Proof.
  intros Hreach Hk. exists (Z.to_nat (retries opts) - k)%nat.
  unfold fetchWithRetry.
  replace (Z.to_nat (retries opts + 1))
    with (k + S (Z.to_nat (retries opts) - k))%nat by lia.
  by apply loop_reaches.
Qed.

(** The handler throws at once: cancellation first, then business errors. *)
Lemma loop_cancelled fuel k lastError error :
  Z.of_nat k <= retries opts ->
  try_block net url opts k = Thrown error ->
  signal_aborted opts k || String.eqb (name error) "AbortError" = true ->
  loop (S fuel) k lastError =
    Some (Thrown (NetworkError CANCELLED JUndefined), [request]).
Proof. intros Hk Htry Hc. rewrite loop_body by done. by rewrite Htry, Hc. Qed.

Lemma loop_business fuel k lastError error :
  Z.of_nat k <= retries opts ->
  try_block net url opts k = Thrown error ->
  signal_aborted opts k || String.eqb (name error) "AbortError" = false ->
  isBusinessError error = true ->
  loop (S fuel) k lastError = Some (Thrown error, [request]).
Proof.
  intros Hk Htry Hc Hb. rewrite loop_body by done. by rewrite Htry, Hc, Hb.
Qed.

(** The [break]: neither thrown at once nor retried. *)
Lemma loop_break fuel k lastError error :
  Z.of_nat k <= retries opts ->
  try_block net url opts k = Thrown error ->
  signal_aborted opts k || String.eqb (name error) "AbortError" = false ->
  isBusinessError error = false ->
  (Z.of_nat k <? retries opts) && isNetworkError error = false ->
  loop (S fuel) k lastError = Some (after_loop opts (Some error), [request]).
Proof.
  intros Hk Htry Hc Hb Hr. rewrite loop_body by done.
  by rewrite Htry, Hc, Hb, Hr.
Qed.

Lemma loop_returned fuel k lastError result :
  Z.of_nat k <= retries opts ->
  try_block net url opts k = Returned result ->
  loop (S fuel) k lastError = Some (Returned result, [request]).
Proof. intros Hk Htry. rewrite loop_body by done. by rewrite Htry. Qed.

End RetryLoop.

(** ** Classification of HTTP statuses *)

Section Classification.
Import Js Errors Fetch.

Lemma classify_server r :
  500 <= Response.status r ->
  classify r =
    NetworkError ("Ошибка сервера " +:+ pretty (Response.status r) +:+ ": "
                    +:+ Response.statusText r) (JNum (Response.status r)).
Proof.
  intros Hs. unfold classify.
  by destruct (Z.leb_spec 500 (Response.status r)); [| lia].
Qed.

Lemma classify_not_found r :
  Response.status r = 404 ->
  classify r = BusinessError "Ресурс не найден (404)" (JStr "NOT_FOUND") JUndefined.
Proof. intros Hs. unfold classify. by rewrite Hs. Qed.

Lemma classify_auth r :
  Response.status r = 401 \/ Response.status r = 403 ->
  classify r =
    BusinessError ("Ошибка авторизации (" +:+ pretty (Response.status r) +:+ ")")
      (JStr "AUTH_ERROR") JUndefined.
Proof. intros [Hs | Hs]; unfold classify; by rewrite Hs. Qed.

Lemma classify_rate_limit r :
  Response.status r = 429 ->
  classify r =
    BusinessError "Превышен лимит запросов (429)" (JStr "RATE_LIMIT") (JNum 429).
Proof. intros Hs. unfold classify. by rewrite Hs. Qed.

Lemma classify_other r :
  Response.status r < 500 ->
  Response.status r <> 404 -> Response.status r <> 401 ->
  Response.status r <> 403 -> Response.status r <> 429 ->
  classify r =
    NetworkError ("HTTP " +:+ pretty (Response.status r) +:+ ": "
                    +:+ Response.statusText r) (JNum (Response.status r)).
Proof.
  intros H500 H404 H401 H403 H429. unfold classify.
  destruct (Z.leb_spec 500 (Response.status r)); [lia |].
  repeat match goal with
         | |- context [?a =? ?b] => destruct (Z.eqb_spec a b); [lia |]
         end.
  reflexivity.
Qed.

(** A classified error is never the platform's abort error. *)
Lemma classify_name r : String.eqb (name (classify r)) "AbortError" = false.
Proof. unfold classify. by repeat case_match. Qed.

Lemma try_block_rejects net url opts k r :
  net k url (headers opts) = Resolved r ->
  Response.ok r = false ->
  try_block net url opts k = Thrown (classify r).
Proof. intros Hnet Hok. unfold try_block. by rewrite Hnet, Hok. Qed.

(** C3. A response whose status is not 2xx makes the [try] block throw at
    once, before the body is read, the error given by the table: 500 and
    above, a [NetworkError] carrying the status; 404, a [BusinessError] with
    code [NOT_FOUND]; 401 and 403, a [BusinessError] with code [AUTH_ERROR];
    429, a [BusinessError] with code [RATE_LIMIT]; any other status, a
    [NetworkError] carrying the status. *)
Theorem status_classification net url opts k r :
  net k url (headers opts) = Resolved r ->
  Response.ok r = false ->
  let status := Response.status r in
  let error := classify r in
  try_block net url opts k = Thrown error /\
  (500 <= status ->
     name error = "NetworkError" /\ isNetworkError error = true /\
     isBusinessError error = false /\ statusCode error = JNum status) /\
  (status = 404 ->
     name error = "BusinessError" /\ isBusinessError error = true /\
     isNetworkError error = false /\ code error = JStr "NOT_FOUND") /\
  (status = 401 \/ status = 403 ->
     name error = "BusinessError" /\ isBusinessError error = true /\
     isNetworkError error = false /\ code error = JStr "AUTH_ERROR") /\
  (status = 429 ->
     name error = "BusinessError" /\ isBusinessError error = true /\
     isNetworkError error = false /\ code error = JStr "RATE_LIMIT") /\
  (status < 500 -> status <> 404 -> status <> 401 -> status <> 403 ->
   status <> 429 ->
     name error = "NetworkError" /\ isNetworkError error = true /\
     isBusinessError error = false /\ statusCode error = JNum status).
Proof.
  intros Hnet Hok status error. subst status error.
  split; [by apply try_block_rejects |].
  split; [intros Hs; by rewrite classify_server |].
  split; [intros Hs; by rewrite classify_not_found |].
  split; [intros Hs; by rewrite classify_auth |].
  split; [intros Hs; by rewrite classify_rate_limit |].
  intros. by rewrite classify_other.
Qed.

Lemma status_classification_witness :
  Examples.always Examples.not_found 0%nat "u" (headers defaults)
    = Resolved Examples.not_found /\
  Response.ok Examples.not_found = false /\
  try_block (Examples.always Examples.not_found) "u" defaults 0
    = Thrown (classify Examples.not_found) /\
  code (classify Examples.not_found) = JStr "NOT_FOUND".
Proof.
  assert (H1 : Examples.always Examples.not_found 0%nat "u" (headers defaults)
               = Resolved Examples.not_found) by reflexivity.
  assert (H2 : Response.ok Examples.not_found = false) by reflexivity.
  destruct (status_classification _ "u" defaults 0%nat _ H1 H2)
    as (Htry & _ & H404 & _).
  split; [exact H1 |]. split; [exact H2 |]. split; [exact Htry |].
  by apply H404.
Defined.

(** The status recorded on the business errors of the table. *)
Lemma classify_status_code r :
  let status := Response.status r in
  let error := classify r in
  (status = 404 \/ status = 401 \/ status = 403 ->
     isBusinessError error = true /\ statusCode error = JNull) /\
  (status = 429 ->
     isBusinessError error = true /\ statusCode error = JNum 429) /\
  (isBusinessError error = true -> statusCode error <> JNull ->
     status = 429 /\ statusCode error = JNum 429).
Proof.
  intros status error. subst status error.
  split; [intros [Hs | Hs]; [by rewrite classify_not_found | by rewrite classify_auth] |].
  split; [intros Hs; by rewrite classify_rate_limit |].
  unfold classify. intros Hb Hnull. repeat case_match; try done.
  match goal with
  | H : (_ =? 429) = true |- _ => apply Z.eqb_eq in H; rewrite H
  end.
  by split.
Qed.

End Classification.

(** ** Outcomes of the retry loop *)

Section Outcomes.
Import Js Errors Fetch.
Variable net : network.
Variable url : string.
Variable opts : options.

#[local] Abbreviation request := (EvFetch url (headers opts)).

(** A call whose [k]-th iteration ends the loop ends with it. *)
Lemma settles_at k (c : completion fetched) :
  reaches net url opts k ->
  Z.of_nat k <= retries opts ->
  (forall fuel lastError,
     retry_loop net url opts (S fuel) k lastError = Some (c, [request])) ->
  fetchWithRetry net url opts = Some (c, (rounds url opts k ++ [request])%list).
Proof.
  intros Hreach Hk Hloop.
  destruct (fetchWithRetry_reaches net url opts k Hreach Hk) as [fuel ->].
  by rewrite Hloop.
Qed.

Lemma cancelled_at k error :
  reaches net url opts k ->
  Z.of_nat k <= retries opts ->
  try_block net url opts k = Thrown error ->
  signal_aborted opts k || String.eqb (name error) "AbortError" = true ->
  fetchWithRetry net url opts =
    Some (Thrown (NetworkError CANCELLED JUndefined),
          (rounds url opts k ++ [request])%list).
Proof.
  intros Hreach Hk Htry Hc. apply settles_at; [done.. |].
  intros fuel lastError. by apply loop_cancelled with error.
Qed.

Lemma business_at k error :
  reaches net url opts k ->
  Z.of_nat k <= retries opts ->
  try_block net url opts k = Thrown error ->
  signal_aborted opts k || String.eqb (name error) "AbortError" = false ->
  isBusinessError error = true ->
  fetchWithRetry net url opts =
    Some (Thrown error, (rounds url opts k ++ [request])%list).
Proof.
  intros Hreach Hk Htry Hc Hb. apply settles_at; [done.. |].
  intros fuel lastError. by apply loop_business.
Qed.

Lemma requests_app evs evs' :
  requests (evs ++ evs') = (requests evs + requests evs')%nat.
Proof.
  induction evs as [| [u h | ms] evs IH]; cbn; [done | | done].
  unfold requests in IH. by rewrite IH.
Qed.

Lemma requests_rounds k : requests (rounds url opts k) = k.
Proof.
  induction k as [| k IH]; [done |].
  cbn [rounds]. rewrite requests_app, IH. cbn. lia.
Qed.

(** C5. When the [k]-th attempt of a call fails with a business error,
    whatever the number of retries left, the call fails after that request
    and sends no other one: [k + 1] requests in all, a single one when the
    first answer is the failing one. The error thrown is that business
    error, the caller's signal not having fired and the error not being an
    abort (the case in which the cancellation check, which comes first,
    applies). *)
Theorem business_error_not_retried k error :
  reaches net url opts k ->
  Z.of_nat k <= retries opts ->
  try_block net url opts k = Thrown error ->
  isBusinessError error = true ->
  (exists thrown,
     fetchWithRetry net url opts =
       Some (Thrown thrown, (rounds url opts k ++ [request])%list)) /\
  requests (rounds url opts k ++ [request]) = S k /\
  (signal_aborted opts k || String.eqb (name error) "AbortError" = false ->
   fetchWithRetry net url opts =
     Some (Thrown error, (rounds url opts k ++ [request])%list)).
Proof.
  intros Hreach Hk Htry Hb. split; [| split].
  - destruct (signal_aborted opts k || String.eqb (name error) "AbortError")
      eqn:Hc.
    + eexists. by apply cancelled_at with error.
    + eexists. by apply business_at.
  - rewrite requests_app, requests_rounds. cbn. lia.
  - intros Hc. by apply business_at.
Qed.

(** C6. When the [k]-th attempt of a call fails while the caller's signal
    has fired, or fails with an abort error, the call fails after that
    request with the [NetworkError] of a cancelled request, whatever the
    number of retries left, and sends no other request. *)
Theorem cancellation_not_retried k error :
  reaches net url opts k ->
  Z.of_nat k <= retries opts ->
  try_block net url opts k = Thrown error ->
  signal_aborted opts k = true \/ name error = "AbortError" ->
  let thrown := NetworkError "Запрос был отменен" JUndefined in
  fetchWithRetry net url opts =
    Some (Thrown thrown, (rounds url opts k ++ [request])%list) /\
  isNetworkError thrown = true /\
  message thrown = "Запрос был отменен".
Proof.
  intros Hreach Hk Htry Hc thrown. split; [| done].
  apply cancelled_at with error; [done.. |].
  destruct Hc as [-> | ->]; [done |]. by rewrite orb_true_r.
Qed.

(** C2, as the code has it. When the [k]-th attempt fails in transport
    ([fetch] rejects with an error of the platform, which carries none of the
    two flags) while retries remain and the caller's signal has not fired,
    the call fails after that request: no delay is slept and no other request
    is sent. A timed out request, rejected with the abort error, ends the
    call as a cancelled one; any other failure ends it wrapped in a
    [NetworkError]. *)
Theorem transport_failure_not_retried k error :
  reaches net url opts k ->
  Z.of_nat k < retries opts ->
  net k url (headers opts) = Rejected error ->
  isNetworkError error = false ->
  isBusinessError error = false ->
  signal_aborted opts k = false ->
  fetchWithRetry net url opts =
    Some (Thrown
            (if String.eqb (name error) "AbortError"
             then NetworkError "Запрос был отменен" JUndefined
             else NetworkError
                    ("Не удалось выполнить запрос после "
                       +:+ pretty (retries opts + 1) +:+ " попыток: "
                       +:+ message error) JUndefined),
          (rounds url opts k ++ [request])%list).
Proof.
  intros Hreach Hk Hnet Hn Hb Hs.
  assert (Htry : try_block net url opts k = Thrown error)
    by (unfold try_block; by rewrite Hnet).
  destruct (String.eqb (name error) "AbortError") eqn:Hname.
  - apply cancelled_at with error; [done | lia | done |].
    by rewrite Hname, orb_true_r.
  - apply settles_at; [done | lia |]. intros fuel lastError.
    rewrite (loop_break net url opts fuel k lastError error); try done.
    + unfold after_loop. by rewrite Hn, Hb.
    + lia.
    + by rewrite Hs, Hname.
    + by rewrite Hn, andb_false_r.
Qed.

Lemma not_ok r :
  Response.status r < 200 \/ 299 < Response.status r -> Response.ok r = false.
Proof.
  intros Hs. unfold Response.ok.
  destruct (Z.leb_spec 200 (Response.status r)),
           (Z.leb_spec (Response.status r) 299); try done; lia.
Qed.

Lemma retried_classified k r :
  net k url (headers opts) = Resolved r ->
  Response.ok r = false ->
  isNetworkError (classify r) = true ->
  signal_aborted opts k = false ->
  Z.of_nat k < retries opts ->
  retried net url opts k = true.
Proof.
  intros Hnet Hok Hn Hsig Hk. unfold retried.
  rewrite (try_block_rejects net url opts k r Hnet Hok).
  rewrite Hsig, classify_name, Hn.
  assert (Hb : isBusinessError (classify r) = false)
    by (revert Hn; unfold classify; by repeat case_match).
  rewrite Hb. cbn.
  by destruct (Z.ltb_spec (Z.of_nat k) (retries opts)); [| lia].
Qed.

Lemma retried_server_error k r :
  net k url (headers opts) = Resolved r ->
  500 <= Response.status r ->
  signal_aborted opts k = false ->
  Z.of_nat k < retries opts ->
  retried net url opts k = true.
Proof.
  intros Hnet Hs Hsig Hk.
  apply retried_classified with r; [done | apply not_ok; lia | | done..].
  by rewrite classify_server.
Qed.

(** A call that returns has sent a request. *)
Lemma returned_after_request fuel k lastError result evs :
  retry_loop net url opts fuel k lastError = Some (Returned result, evs) ->
  (0 < requests evs)%nat.
Proof.
  revert k lastError evs.
  induction fuel as [| fuel IH]; intros k lastError evs; cbn [retry_loop].
  - case_match; [done |]. unfold after_loop. by repeat case_match.
  - case_match; [| unfold after_loop; by repeat case_match].
    destruct (try_block net url opts k) as [ok | error].
    + intros [= <- <-]. cbn. lia.
    + repeat case_match; try done; cbn.
      * destruct (retry_loop net url opts fuel (S k) (Some error))
          as [[c t] |]; [| done].
        intros [= -> <-]. cbn. lia.
      * unfold after_loop. by repeat case_match.
Qed.

(** A call that returns hands back a response whose status is 2xx. *)
Lemma try_block_returned k result :
  try_block net url opts k = Returned result ->
  200 <= fetched_status result <= 299.
Proof.
  unfold try_block.
  destruct (net k url (headers opts)) as [r | e]; [| done].
  destruct (Response.ok r) eqn:Hok; [| done]. cbn.
  destruct (Response.json r) as [d | e]; [| done].
  intros [= <-]. cbn. unfold Response.ok in Hok.
  apply andb_true_iff in Hok as [Hlo Hhi]. lia.
Qed.

Lemma returned_is_ok fuel k lastError result evs :
  retry_loop net url opts fuel k lastError = Some (Returned result, evs) ->
  200 <= fetched_status result <= 299.
Proof.
  revert k lastError evs.
  induction fuel as [| fuel IH]; intros k lastError evs; cbn [retry_loop].
  - case_match; [done |]. unfold after_loop. by repeat case_match.
  - case_match; [| unfold after_loop; by repeat case_match].
    destruct (try_block net url opts k) as [ok | error] eqn:Htry.
    + intros [= <- <-]. by apply try_block_returned with k.
    + repeat case_match; try done; cbn.
      * destruct (retry_loop net url opts fuel (S k) (Some error))
          as [[c t] |] eqn:Hnext; [| done].
        intros [= -> <-]. by apply IH in Hnext.
      * unfold after_loop. by repeat case_match.
Qed.

(** C4. With [retries = 2] and a server answering 500, 500 and then a 2xx
    response with a JSON body, the caller's signal not firing meanwhile, the
    call returns the data parsed from the third response; it sends exactly
    three requests, that is [retries + 1], and sleeps [backoffMs * 2^0]
    before the second and [backoffMs * 2^1] before the third, in total
    [backoffMs * (1 + 2)]. *)
Theorem two_failures_then_success r0 r1 r2 d :
  retries opts = 2 ->
  net 0%nat url (headers opts) = Resolved r0 -> Response.status r0 = 500 ->
  net 1%nat url (headers opts) = Resolved r1 -> Response.status r1 = 500 ->
  net 2%nat url (headers opts) = Resolved r2 -> Response.ok r2 = true ->
  Response.json r2 = inl d ->
  signal_aborted opts 0 = false ->
  signal_aborted opts 1 = false ->
  let events :=
    [request; EvSleep (backoffMs opts * 2 ^ 0);
     request; EvSleep (backoffMs opts * 2 ^ 1);
     request] in
  fetchWithRetry net url opts =
    Some (Returned {| data := d;
                      fetched_headers := Response.headers r2;
                      fetched_status := Response.status r2 |}, events) /\
  requests events = 3%nat /\
  Z.of_nat (requests events) = retries opts + 1 /\
  slept events = backoffMs opts * (1 + 2).
Proof.
  intros Hretries Hn0 Hs0 Hn1 Hs1 Hn2 Hok Hjson Hsig0 Hsig1 events.
  assert (Hreach : reaches net url opts 2).
  { intros j Hj. destruct j as [| [| j]]; [| | lia].
    - apply retried_server_error with r0; [done | lia | done | lia].
    - apply retried_server_error with r1; [done | lia | done | lia]. }
  split; [| split; [reflexivity | split; [cbn; lia | cbn; lia]]].
  destruct (fetchWithRetry_reaches net url opts 2 Hreach) as [fuel ->]; [lia |].
  rewrite (loop_returned net url opts fuel 2 _
             {| data := d; fetched_headers := Response.headers r2;
                fetched_status := Response.status r2 |}).
  - reflexivity.
  - lia.
  - unfold try_block. by rewrite Hn2, Hok, Hjson.
Qed.

(** C10. When [fetchWithRetry] fails on a 404, 401, 403 or 429 response (the
    caller's signal not having fired), the error it throws is a
    [BusinessError] whose [statusCode] is [null] for 404, 401 and 403, and
    429 for 429: the HTTP status is recorded only for the rate limit. *)
Theorem business_error_status_code k r :
  reaches net url opts k ->
  Z.of_nat k <= retries opts ->
  net k url (headers opts) = Resolved r ->
  signal_aborted opts k = false ->
  let status := Response.status r in
  status = 404 \/ status = 401 \/ status = 403 \/ status = 429 ->
  exists error,
    fetchWithRetry net url opts =
      Some (Thrown error, (rounds url opts k ++ [request])%list) /\
    name error = "BusinessError" /\
    isBusinessError error = true /\
    statusCode error = if status =? 429 then JNum 429 else JNull.
Proof.
  intros Hreach Hk Hnet Hsig status Hstatus. subst status.
  assert (Htry : try_block net url opts k = Thrown (classify r))
    by (apply try_block_rejects; [done | apply not_ok; lia]).
  assert (Hfacts :
    name (classify r) = "BusinessError" /\ isBusinessError (classify r) = true /\
    statusCode (classify r) = if Response.status r =? 429 then JNum 429 else JNull).
  { destruct Hstatus as [Hs | [Hs | [Hs | Hs]]].
    - rewrite classify_not_found by done. by rewrite Hs.
    - rewrite classify_auth by auto. by rewrite Hs.
    - rewrite classify_auth by auto. by rewrite Hs.
    - rewrite classify_rate_limit by done. by rewrite Hs. }
  exists (classify r). split; [| exact Hfacts].
  apply business_at; [done.. | | tauto].
  by rewrite Hsig, classify_name.
Qed.

End Outcomes.

Section OutcomeWitnesses.
Import Js Errors Fetch Examples.

Lemma business_error_not_retried_witness :
  let net := always not_found in
  let opts := with_retries 2 None in
  reaches net "u" opts 0 /\
  Z.of_nat 0 <= retries opts /\
  try_block net "u" opts 0 = Thrown (classify not_found) /\
  isBusinessError (classify not_found) = true /\
  fetchWithRetry net "u" opts = Some (Thrown (classify not_found), [EvFetch "u" []]) /\
  requests [EvFetch "u" []] = 1%nat.
Proof.
  intros net opts.
  assert (H1 : reaches net "u" opts 0) by (intros j Hj; lia).
  assert (H2 : Z.of_nat 0 <= retries opts) by (cbn; lia).
  assert (H3 : try_block net "u" opts 0 = Thrown (classify not_found))
    by reflexivity.
  assert (H4 : isBusinessError (classify not_found) = true) by reflexivity.
  split; [exact H1 |]. split; [exact H2 |]. split; [exact H3 |].
  split; [exact H4 |]. split; [| reflexivity].
  apply (proj2 (proj2 (business_error_not_retried net "u" opts 0 _ H1 H2 H3 H4))).
  reflexivity.
Defined.

Lemma cancellation_not_retried_witness :
  let opts := with_retries 2 (Some (fires_at 1)) in
  reaches flaky "u" opts 1 /\
  Z.of_nat 1 <= retries opts /\
  try_block flaky "u" opts 1 = Thrown (classify server_error) /\
  (signal_aborted opts 1 = true \/ name (classify server_error) = "AbortError") /\
  fetchWithRetry flaky "u" opts =
    Some (Thrown (NetworkError "Запрос был отменен" JUndefined),
          [EvFetch "u" []; EvSleep 500; EvFetch "u" []]).
Proof.
  intros opts.
  assert (H1 : reaches flaky "u" opts 1).
  { intros j Hj. destruct j; [reflexivity | lia]. }
  assert (H2 : Z.of_nat 1 <= retries opts) by (cbn; lia).
  assert (H3 : try_block flaky "u" opts 1 = Thrown (classify server_error))
    by reflexivity.
  assert (H4 : signal_aborted opts 1 = true \/
               name (classify server_error) = "AbortError")
    by (left; reflexivity).
  split; [exact H1 |]. split; [exact H2 |]. split; [exact H3 |].
  split; [exact H4 |].
  exact (proj1 (cancellation_not_retried flaky "u" opts 1 _ H1 H2 H3 H4)).
Defined.

Lemma transport_failure_not_retried_witness :
  let opts := with_retries 2 None in
  let error := platform_error "TypeError" "Failed to fetch" in
  let abort := platform_error "AbortError" "The operation was aborted." in
  reaches offline "u" opts 0 /\
  Z.of_nat 0 < retries opts /\
  offline 0%nat "u" (headers opts) = Rejected error /\
  timing_out 0%nat "u" (headers opts) = Rejected abort /\
  isNetworkError error = false /\
  isBusinessError error = false /\
  signal_aborted opts 0 = false /\
  fetchWithRetry offline "u" opts =
    Some (Thrown (NetworkError
                    "Не удалось выполнить запрос после 3 попыток: Failed to fetch"
                    JUndefined),
          [EvFetch "u" []]) /\
  fetchWithRetry timing_out "u" opts =
    Some (Thrown (NetworkError "Запрос был отменен" JUndefined), [EvFetch "u" []]).
Proof.
  intros opts error abort.
  assert (H1 : reaches offline "u" opts 0) by (intros j Hj; lia).
  assert (H1' : reaches timing_out "u" opts 0) by (intros j Hj; lia).
  assert (H2 : Z.of_nat 0 < retries opts) by (cbn; lia).
  assert (H3 : offline 0%nat "u" (headers opts) = Rejected error) by reflexivity.
  assert (H3' : timing_out 0%nat "u" (headers opts) = Rejected abort)
    by reflexivity.
  assert (H4 : isNetworkError error = false) by reflexivity.
  assert (H5 : isBusinessError error = false) by reflexivity.
  assert (H6 : signal_aborted opts 0 = false) by reflexivity.
  split; [exact H1 |]. split; [exact H2 |]. split; [exact H3 |].
  split; [exact H3' |].
  split; [exact H4 |]. split; [exact H5 |]. split; [exact H6 |].
  split.
  - exact (transport_failure_not_retried offline "u" opts 0 error
             H1 H2 H3 H4 H5 H6).
  - exact (transport_failure_not_retried timing_out "u" opts 0 abort
             H1' H2 H3' eq_refl eq_refl H6).
Defined.

Lemma two_failures_then_success_witness :
  retries defaults = 2 /\
  flaky 0%nat "u" (headers defaults) = Resolved server_error /\
  flaky 2%nat "u" (headers defaults) = Resolved weather_ok /\
  Response.ok weather_ok = true /\
  fetchWithRetry flaky "u" defaults =
    Some (Returned {| data := moscow; fetched_headers := [];
                      fetched_status := 200 |},
          [EvFetch "u" []; EvSleep 500; EvFetch "u" []; EvSleep 1000;
           EvFetch "u" []]) /\
  slept [EvFetch "u" []; EvSleep 500; EvFetch "u" []; EvSleep 1000;
         EvFetch "u" []] = 500 * (1 + 2).
Proof.
  assert (H0 : retries defaults = 2) by reflexivity.
  assert (H1 : flaky 0%nat "u" (headers defaults) = Resolved server_error)
    by reflexivity.
  assert (H2 : flaky 1%nat "u" (headers defaults) = Resolved server_error)
    by reflexivity.
  assert (H3 : flaky 2%nat "u" (headers defaults) = Resolved weather_ok)
    by reflexivity.
  assert (H4 : Response.ok weather_ok = true) by reflexivity.
  destruct (two_failures_then_success flaky "u" defaults
              server_error server_error weather_ok moscow
              H0 H1 eq_refl H2 eq_refl H3 H4 eq_refl eq_refl eq_refl)
    as (Hrun & _ & _ & Hslept).
  split; [exact H0 |]. split; [exact H1 |]. split; [exact H3 |].
  split; [exact H4 |]. split; [exact Hrun | exact Hslept].
Defined.

Lemma business_error_status_code_witness :
  let net := always not_found in
  let opts := with_retries 2 None in
  reaches net "u" opts 0 /\
  Z.of_nat 0 <= retries opts /\
  net 0%nat "u" (headers opts) = Resolved not_found /\
  signal_aborted opts 0 = false /\
  (Response.status not_found = 404 \/ Response.status not_found = 401 \/
   Response.status not_found = 403 \/ Response.status not_found = 429) /\
  exists error,
    fetchWithRetry net "u" opts = Some (Thrown error, [EvFetch "u" []]) /\
    statusCode error = JNull.
Proof.
  intros net opts.
  assert (H1 : reaches net "u" opts 0) by (intros j Hj; lia).
  assert (H2 : Z.of_nat 0 <= retries opts) by (cbn; lia).
  assert (H3 : net 0%nat "u" (headers opts) = Resolved not_found) by reflexivity.
  assert (H4 : signal_aborted opts 0 = false) by reflexivity.
  assert (H5 : Response.status not_found = 404 \/ Response.status not_found = 401 \/
               Response.status not_found = 403 \/ Response.status not_found = 429)
    by (left; reflexivity).
  split; [exact H1 |]. split; [exact H2 |]. split; [exact H3 |].
  split; [exact H4 |]. split; [exact H5 |].
  destruct (business_error_status_code net "u" opts 0 not_found H1 H2 H3 H4 H5)
    as (error & Hrun & _ & _ & Hcode).
  exists error. split; [exact Hrun | exact Hcode].
Defined.

End OutcomeWitnesses.

(** ** The paginated city client *)

Section Cities.
Import Js Errors Fetch MockApi.

(** X28. No call of [getCitiesPaginated] returns through its 304 branch:
    what it returns is always the freshly assembled page, tagged
    [cacheHit = false] and [fromCache = false]. *)
Lemma cache_hit_unreachable net now page limit signal useETag cache
    result evs cache' :
  getCitiesPaginated net now page limit signal useETag cache
    = Some (Returned result, evs, cache') ->
  get_prop "cacheHit" result = JBool false /\
  get_prop "fromCache" result = JBool false.
Proof.
  unfold getCitiesPaginated.
  destruct (fetchWithRetry _ _ _) as [[[response | error] evs0] |] eqn:Hrun;
    [| done..].
  apply returned_is_ok in Hrun.
  destruct (Z.eqb_spec (fetched_status response) 304) as [Hs | _]; [lia |].
  repeat case_match; try done; by intros [= <- _ _].
Qed.

(** C1, as the code has it. With [useETag] on, whatever validator is cached
    for the URL, a server that answers 304 never gets the client to its
    [response.status === 304] branch: [response.ok] is false for 304, so
    [fetchWithRetry] classifies each answer as a [NetworkError], retries twice
    and fails, and [getCitiesPaginated] rethrows that error instead of
    returning the cached page. *)
Theorem not_modified_is_rejected net now page limit signal cache
    (r : nat -> Response.t) :
  let url := citiesUrl page limit in
  let headers := conditional_headers true url cache in
  (forall k, net k url headers = Resolved (r k)) ->
  (forall k, Response.status (r k) = 304) ->
  (forall s k, signal = Some s -> s k = false) ->
  getCitiesPaginated net now page limit signal true cache =
    Some (Thrown (NetworkError ("HTTP 304: " +:+ Response.statusText (r 2%nat))
                    (JNum 304)),
          [EvFetch url headers; EvSleep 500; EvFetch url headers; EvSleep 1000;
           EvFetch url headers],
          cache).
Proof.
  intros url headers Hnet Hstatus Hsignal.
  unfold getCitiesPaginated. fold url. fold headers.
  set (opts := {| retries := 2; backoffMs := 500; timeoutMs := 5000;
                  signal := signal; Fetch.headers := headers |}).
  assert (Hsig : forall k, signal_aborted opts k = false).
  { intros k. unfold signal_aborted. cbn.
    destruct signal as [s |] eqn:Hs; [by apply Hsignal | done]. }
  assert (Hclass : forall k,
    classify (r k) =
      NetworkError ("HTTP 304: " +:+ Response.statusText (r k)) (JNum 304)).
  { intros k. rewrite classify_other by (rewrite Hstatus; lia).
    by rewrite Hstatus. }
  assert (Hok : forall k, Response.ok (r k) = false).
  { intros k. apply not_ok. rewrite Hstatus. lia. }
  assert (Hreach : reaches net url opts 2).
  { intros j Hj. apply retried_classified with (r j).
    - apply Hnet.
    - apply Hok.
    - by rewrite Hclass.
    - apply Hsig.
    - cbn. lia. }
  assert (Hrun : fetchWithRetry net url opts =
    Some (Thrown (classify (r 2%nat)),
          [EvFetch url headers; EvSleep 500; EvFetch url headers; EvSleep 1000;
           EvFetch url headers])).
  { rewrite (settles_at net url opts 2 (Thrown (classify (r 2%nat))) Hreach);
      [reflexivity | cbn; lia |].
    intros fuel lastError.
    rewrite (loop_break net url opts fuel 2 lastError (classify (r 2%nat))).
    - unfold after_loop. by rewrite Hclass.
    - cbn. lia.
    - apply try_block_rejects; [apply Hnet | apply Hok].
    - by rewrite Hsig, classify_name.
    - by rewrite Hclass.
    - reflexivity. }
  rewrite Hrun, Hclass. reflexivity.
Qed.

Lemma not_modified_is_rejected_witness :
  let url := citiesUrl 1 10 in
  getCitiesPaginated Examples.conditional 1000 1 10 None true etagCache =
    Some (Returned Examples.first_page, [EvFetch url []], Examples.stored) /\
  conditional_headers true url Examples.stored = [("If-None-Match", "v1")] /\
  (forall k, Examples.conditional k url [("If-None-Match", "v1")]
             = Resolved Examples.not_modified) /\
  Response.status Examples.not_modified = 304 /\
  getCitiesPaginated Examples.conditional 2000 1 10 None true Examples.stored =
    Some (Thrown (NetworkError "HTTP 304: Not Modified" (JNum 304)),
          [EvFetch url [("If-None-Match", "v1")]; EvSleep 500;
           EvFetch url [("If-None-Match", "v1")]; EvSleep 1000;
           EvFetch url [("If-None-Match", "v1")]],
          Examples.stored).
Proof.
  intros url.
  assert (Hfirst :
    getCitiesPaginated Examples.conditional 1000 1 10 None true etagCache =
      Some (Returned Examples.first_page, [EvFetch url []], Examples.stored))
    by (vm_compute; reflexivity).
  assert (Hheaders :
    conditional_headers true url Examples.stored = [("If-None-Match", "v1")])
    by (vm_compute; reflexivity).
  assert (Hnet : forall k,
    Examples.conditional k url (conditional_headers true url Examples.stored)
      = Resolved ((fun _ => Examples.not_modified) k))
    by (intros k; rewrite Hheaders; reflexivity).
  assert (Hstatus : forall k : nat,
    Response.status ((fun _ => Examples.not_modified) k) = 304)
    by (intros k; reflexivity).
  assert (Hsignal : forall (s : AbortSignal) (k : nat),
    @None AbortSignal = Some s -> s k = false) by (intros s k H; discriminate H).
  pose proof (not_modified_is_rejected Examples.conditional 2000 1 10 None
                Examples.stored (fun _ => Examples.not_modified)
                Hnet Hstatus Hsignal) as Hsecond.
  cbv zeta in Hsecond. fold url in Hsecond. rewrite Hheaders in Hsecond.
  split; [exact Hfirst |]. split; [exact Hheaders |].
  split; [intros k; reflexivity |]. split; [reflexivity |].
  exact Hsecond.
Defined.

End Cities.

(** ** The weather client *)

Section Weather.
Import Js Errors Fetch WeatherApi.
Variable toLowerCase : string -> string.

#[local] Abbreviation getWeather := (getWeatherByCity toLowerCase).
#[local] Abbreviation key := (cacheKey toLowerCase).

Lemma get_set_prop k v (o : object) : get_prop k (set_prop k v o) = v.
Proof.
  induction o as [| [k' v'] o IH]; cbn.
  - by rewrite String.eqb_refl.
  - destruct (String.eqb k' k) eqn:Hk; cbn.
    + by rewrite String.eqb_refl.
    + by rewrite Hk.
Qed.

Lemma get_set_prop_other k k' v (o : object) :
  k' <> k -> get_prop k' (set_prop k v o) = get_prop k' o.
Proof.
  intros Hne. induction o as [| [k0 v0] o IH]; cbn.
  - destruct (String.eqb_spec k k'); [congruence | done].
  - destruct (String.eqb_spec k0 k) as [-> | Hk0]; cbn.
    + by destruct (String.eqb_spec k k'); [congruence |].
    + by rewrite IH.
Qed.

Lemma set_prop_fresh k v (o : object) :
  k ∉ o.*1 -> set_prop k v o = (o ++ [(k, v)])%list.
Proof.
  induction o as [| [k' v'] o IH]; cbn; [done |].
  intros Hk. apply not_elem_of_cons in Hk as [Hne Hk].
  destruct (String.eqb_spec k' k); [congruence |]. by rewrite IH.
Qed.

(** Spreading an object copies its properties as they are. *)
Lemma spread_object (props : object) :
  NoDup props.*1 -> spread (JObj props) = props.
Proof.
  intros Hnd. unfold spread.
  enough (H : forall acc : object,
             NoDup (acc.*1 ++ props.*1) ->
             foldl (fun acc kv => set_prop kv.1 kv.2 acc) acc props
               = (acc ++ props)%list) by (by apply (H [])).
  clear Hnd. induction props as [| [k v] props IH]; intros acc Hnd; cbn.
  - by rewrite app_nil_r.
  - rewrite set_prop_fresh.
    + rewrite IH; [by rewrite <- app_assoc |].
      rewrite fmap_app, <- app_assoc. exact Hnd.
    + apply NoDup_app in Hnd as (_ & Hdisj & _).
      intros Hin. apply (Hdisj k Hin). cbn. left.
Qed.

Lemma encode_ok (s : string) :
  lone_surrogate s = false -> encodeURIComponent s = Some (escape s).
Proof. unfold encodeURIComponent. by intros ->. Qed.

Lemma encode_throws (s : string) :
  lone_surrogate s = true -> encodeURIComponent s = None.
Proof. unfold encodeURIComponent. by intros ->. Qed.

Lemma weather_hit net t_read t_write cityName signal (cache : CacheWithTTL.t)
    payload expires :
  CacheWithTTL.cache cache !! key cityName
    = Some {| CacheWithTTL.value := payload; CacheWithTTL.expiresAt := expires |} ->
  t_read <= expires ->
  truthy payload = true ->
  getWeather net t_read t_write cityName false signal cache =
    Some (Returned (set_prop "fromCache" (JBool true) (spread payload)), [], cache).
Proof.
  intros Hentry Hfresh Htruthy. unfold getWeatherByCity, CacheWithTTL.get.
  rewrite Hentry. cbn.
  destruct (Z.ltb_spec expires t_read); [lia |]. by rewrite Htruthy.
Qed.

(** What is left of the cache when the lookup goes on to the request. *)
Lemma weather_miss net t_read t_write cityName ignoreCache signal
    (cache : CacheWithTTL.t) :
  ignoreCache = true \/
    truthy (CacheWithTTL.get t_read (key cityName) cache).1 = false ->
  let read :=
    if ignoreCache then cache
    else (CacheWithTTL.get t_read (key cityName) cache).2 in
  getWeather net t_read t_write cityName ignoreCache signal cache =
    match encodeURIComponent cityName with
    | None => Some (Thrown URIError, [], read)
    | Some encoded =>
        match fetchWithRetry net (weatherUrlOf encoded) (requestOptions signal) with
        | None => None
        | Some (Returned response, evs) =>
            Some (Returned (set_prop "fromCache" (JBool false)
                              (spread (data response))), evs,
                  CacheWithTTL.set t_write (key cityName) (data response) read)
        | Some (Thrown error, evs) =>
            Some (Thrown (remap cityName error), evs, read)
        end
    end.
Proof.
  intros Hmiss read. unfold getWeatherByCity.
  destruct ignoreCache; cbn [negb andb]; [done |].
  destruct Hmiss as [Hmiss | Hmiss]; [done |].
  subst read. destruct (CacheWithTTL.get t_read (key cityName) cache)
    as [cached cache'] eqn:Hget.
  cbn in Hmiss |- *. by rewrite Hmiss.
Qed.

(** C8, as stated, fails in three ways. An entry that has not expired is
    not a hit when its payload is falsy: with [0] stored, the lookup sends
    a request and answers from the network. A hit on a payload that is not
    an object returns none of it: with [true] stored, the result is the tag
    alone. And on a miss a name that cannot be percent-encoded is not
    fetched: the lookup throws a [URIError] and sends nothing. *)
Lemma weather_policy_exceptions :
  let lower := Headers.lowercase in
  let key := cacheKey lower "Moscow" in
  let zero := CacheWithTTL.set 10 key (JNum 0) weatherCache in
  let yes := CacheWithTTL.set 10 key (JBool true) weatherCache in
  let half := Js.three_bytes 55357 in
  (CacheWithTTL.getCacheInfo 20 key zero
     = Some {| CacheWithTTL.isExpired := false;
               CacheWithTTL.remainingMs := 599990;
               CacheWithTTL.remainingSec := 600 |}) /\
  (getWeatherByCity lower (Examples.always Examples.weather_ok) 20 30 "Moscow"
     false None zero
     = Some (Returned (set_prop "fromCache" (JBool false)
                         (spread Examples.moscow)),
             [EvFetch (weatherUrl "Moscow") []],
             CacheWithTTL.set 30 key Examples.moscow zero)) /\
  (getWeatherByCity lower Examples.offline 20 30 "Moscow" false None yes
     = Some (Returned [("fromCache", JBool true)], [], yes)) /\
  (CacheWithTTL.cache weatherCache !! cacheKey lower half = None) /\
  (getWeatherByCity lower (Examples.always Examples.weather_ok) 0 10 half
     false None weatherCache
     = Some (Thrown URIError, [], weatherCache)).
Proof. repeat split. Qed.

(** C8, amended. The cache key is the lower-cased city name behind the
    [weather_] prefix, so names with the same lower-casing share it. With
    [ignoreCache = false], an entry under that key that has not expired and
    holds a truthy payload is a hit: the result is the properties the
    payload spreads to, tagged [fromCache = true], with no request sent and
    the cache untouched; for a payload that is an object these are all its
    properties, each with its value ([fromCache] apart, which is the tag),
    and for a number or a boolean there is none, the result being the tag
    alone. This is so for a second name differing only in case, within the
    TTL of a payload stored under the first. An entry that has not expired
    but holds a falsy payload is read as it is and counts as a miss. On a
    miss, and always with [ignoreCache = true], which skips the read: for a
    name that can be percent-encoded, a successful fetch sends at least one
    request, stores the payload under the same key and returns its
    properties tagged [fromCache = false]; for a name that cannot, the
    lookup throws the [URIError] with no request sent and nothing stored. *)
Theorem weather_cache_policy net t_read t_write cityName signal
    (cache : CacheWithTTL.t) :
  key cityName = "weather_" +:+ toLowerCase cityName /\
  (forall other, toLowerCase other = toLowerCase cityName ->
     key other = key cityName) /\
  (forall payload expires,
     CacheWithTTL.cache cache !! key cityName
       = Some {| CacheWithTTL.value := payload;
                 CacheWithTTL.expiresAt := expires |} ->
     t_read <= expires ->
     truthy payload = true ->
     let result := set_prop "fromCache" (JBool true) (spread payload) in
     getWeather net t_read t_write cityName false signal cache
       = Some (Returned result, [], cache) /\
     get_prop "fromCache" result = JBool true /\
     (forall props, payload = JObj props -> NoDup props.*1 ->
        result = set_prop "fromCache" (JBool true) props /\
        (forall p, p <> "fromCache" -> get_prop p result = get_prop p props)) /\
     match payload with
     | JObj _ | JArr _ | JStr _ => True
     | _ => result = [("fromCache", JBool true)]
     end) /\
  (forall other payload stored_at,
     toLowerCase other = toLowerCase cityName ->
     truthy payload = true ->
     t_read <= stored_at + CacheWithTTL.ttlMs cache ->
     let cache1 := CacheWithTTL.set stored_at (key cityName) payload cache in
     getWeather net t_read t_write other false signal cache1
       = Some (Returned (set_prop "fromCache" (JBool true) (spread payload)),
               [], cache1)) /\
  (forall payload expires,
     CacheWithTTL.cache cache !! key cityName
       = Some {| CacheWithTTL.value := payload;
                 CacheWithTTL.expiresAt := expires |} ->
     t_read <= expires ->
     truthy payload = false ->
     CacheWithTTL.get t_read (key cityName) cache = (payload, cache) /\
     truthy (CacheWithTTL.get t_read (key cityName) cache).1 = false) /\
  (forall ignoreCache response evs,
     ignoreCache = true \/
       truthy (CacheWithTTL.get t_read (key cityName) cache).1 = false ->
     lone_surrogate cityName = false ->
     fetchWithRetry net (weatherUrl cityName) (requestOptions signal)
       = Some (Returned response, evs) ->
     let result :=
       set_prop "fromCache" (JBool false) (spread (data response)) in
     let read :=
       if ignoreCache then cache
       else (CacheWithTTL.get t_read (key cityName) cache).2 in
     let written :=
       CacheWithTTL.set t_write (key cityName) (data response) read in
     getWeather net t_read t_write cityName ignoreCache signal cache
       = Some (Returned result, evs, written) /\
     (0 < requests evs)%nat /\
     CacheWithTTL.cache written !! key cityName
       = Some {| CacheWithTTL.value := data response;
                 CacheWithTTL.expiresAt := t_write + CacheWithTTL.ttlMs cache |} /\
     get_prop "fromCache" result = JBool false /\
     (forall props, data response = JObj props -> NoDup props.*1 ->
        result = set_prop "fromCache" (JBool false) props /\
        (forall p, p <> "fromCache" -> get_prop p result = get_prop p props))) /\
  (forall ignoreCache,
     ignoreCache = true \/
       truthy (CacheWithTTL.get t_read (key cityName) cache).1 = false ->
     lone_surrogate cityName = true ->
     getWeather net t_read t_write cityName ignoreCache signal cache
       = Some (Thrown URIError, [],
               if ignoreCache then cache
               else (CacheWithTTL.get t_read (key cityName) cache).2)).
Proof.
  split; [reflexivity |].
  split; [intros other Hsame; unfold cacheKey; by rewrite Hsame |].
  split; [| split; [| split; [| split]]].
  - intros payload expires Hentry Hfresh Htruthy result.
    split; [by apply weather_hit with expires |].
    split; [apply get_set_prop |].
    split; [| subst result; by destruct payload].
    intros props -> Hnd. subst result. rewrite spread_object by done.
    split; [reflexivity | intros p Hp; by apply get_set_prop_other].
  - intros other payload stored_at Hsame Htruthy Hfresh cache1.
    apply weather_hit with (stored_at + CacheWithTTL.ttlMs cache); [| done..].
    unfold cacheKey. rewrite Hsame. subst cache1. cbn.
    apply lookup_insert_eq.
  - intros payload expires Hentry Hfresh Hfalsy.
    unfold CacheWithTTL.get. rewrite Hentry. cbn.
    by destruct (Z.ltb_spec expires t_read); [lia |].
  - intros ignoreCache response evs Hmiss Hname Hrun result read written.
    split.
    { rewrite weather_miss by done. rewrite encode_ok by done.
      change (weatherUrlOf (escape cityName)) with (weatherUrl cityName).
      by rewrite Hrun. }
    split; [by apply (returned_after_request _ _ _ _ _ _ _ _ Hrun) |].
    split.
    { subst written read. cbn. rewrite lookup_insert_eq.
      destruct ignoreCache; [done |].
      unfold CacheWithTTL.get. by repeat case_match. }
    split; [apply get_set_prop |].
    intros props Hdata Hnd. subst result. rewrite Hdata, spread_object by done.
    split; [reflexivity | intros p Hp; by apply get_set_prop_other].
  - intros ignoreCache Hmiss Hname.
    rewrite weather_miss by done. by rewrite encode_throws.
Qed.

End Weather.

Section WeatherWitness.
Import Js Errors Fetch WeatherApi Examples.

#[local] Abbreviation lower := Headers.lowercase.

Lemma weather_cache_policy_witness :
  let net := always weather_ok in
  let response := {| data := moscow; fetched_headers := [];
                     fetched_status := 200 |} in
  let request := EvFetch (weatherUrl "Moscow") [] in
  let key := cacheKey lower "Moscow" in
  let cache1 := CacheWithTTL.set 10 key moscow weatherCache in
  let zero := CacheWithTTL.set 10 key (JNum 0) weatherCache in
  let fresh := set_prop "fromCache" (JBool false) (spread moscow) in
  let hit := set_prop "fromCache" (JBool true) (spread moscow) in
  lower "MOSCOW" = lower "Moscow" /\
  truthy moscow = true /\
  600010 <= 10 + CacheWithTTL.ttlMs weatherCache /\
  truthy (CacheWithTTL.get 0 key weatherCache).1 = false /\
  lone_surrogate "Moscow" = false /\
  fetchWithRetry net (weatherUrl "Moscow") (requestOptions None)
    = Some (Returned response, [request]) /\
  getWeatherByCity lower net 0 10 "Moscow" false None weatherCache
    = Some (Returned fresh, [request], cache1) /\
  get_prop "name" fresh = JStr "Moscow" /\
  get_prop "fromCache" fresh = JBool false /\
  getWeatherByCity lower offline 600010 600011 "MOSCOW" false None cache1
    = Some (Returned hit, [], cache1) /\
  get_prop "name" hit = JStr "Moscow" /\
  get_prop "main" hit = JObj [("temp", JFrac 4483 (-4))] /\
  get_prop "fromCache" hit = JBool true /\
  getWeatherByCity lower net 20 30 "Moscow" true None cache1
    = Some (Returned fresh, [request], CacheWithTTL.set 30 key moscow cache1) /\
  truthy (JNum 0) = false /\
  getWeatherByCity lower net 20 30 "Moscow" false None zero
    = Some (Returned fresh, [request], CacheWithTTL.set 30 key moscow zero).
Proof.
  intros net response request key cache1 zero fresh hit.
  assert (H1 : lower "MOSCOW" = lower "Moscow") by reflexivity.
  assert (H2 : truthy moscow = true) by reflexivity.
  assert (H3 : 600010 <= 10 + CacheWithTTL.ttlMs weatherCache) by (cbn; lia).
  assert (H4 : truthy (CacheWithTTL.get 0 key weatherCache).1 = false)
    by reflexivity.
  assert (H5 : fetchWithRetry net (weatherUrl "Moscow") (requestOptions None)
               = Some (Returned response, [request])) by reflexivity.
  assert (H6 : lone_surrogate "Moscow" = false) by reflexivity.
  assert (H7 : CacheWithTTL.cache cache1 !! cacheKey lower "MOSCOW"
               = Some {| CacheWithTTL.value := moscow;
                         CacheWithTTL.expiresAt := 600010 |}) by reflexivity.
  assert (H8 : 600010 <= 600010) by lia.
  assert (H9 : NoDup ["name"; "main"]).
  { apply (bool_decide_unpack _). vm_compute. exact I. }
  assert (H10 : CacheWithTTL.cache zero !! key
                = Some {| CacheWithTTL.value := JNum 0;
                          CacheWithTTL.expiresAt := 600010 |}) by reflexivity.
  assert (H11 : 20 <= 600010) by lia.
  assert (H12 : truthy (JNum 0) = false) by reflexivity.
  destruct (weather_cache_policy lower net 0 10 "Moscow" None weatherCache)
    as (_ & _ & _ & _ & _ & Hmiss & _).
  destruct (Hmiss false response [request] (or_intror H4) H6 H5)
    as (Hfirst & _ & _ & Htag & Hprops).
  destruct (Hprops _ eq_refl H9) as [_ Hsame].
  destruct (weather_cache_policy lower offline 600010 600011 "MOSCOW" None cache1)
    as (_ & _ & Hhit & _).
  destruct (Hhit moscow 600010 H7 H8 H2) as (Hsecond & Htag' & Hprops' & _).
  destruct (Hprops' _ eq_refl H9) as [_ Hsame'].
  destruct (weather_cache_policy lower net 20 30 "Moscow" None cache1)
    as (_ & _ & _ & _ & _ & Hmiss' & _).
  destruct (weather_cache_policy lower net 20 30 "Moscow" None zero)
    as (_ & _ & _ & _ & Hfalsy & Hmiss'' & _).
  destruct (Hfalsy (JNum 0) 600010 H10 H11 H12) as [_ Hread].
  split; [exact H1 |]. split; [exact H2 |]. split; [exact H3 |].
  split; [exact H4 |]. split; [exact H6 |]. split; [exact H5 |].
  split; [exact Hfirst |].
  split; [exact (Hsame "name" ltac:(discriminate)) |].
  split; [exact Htag |].
  split; [exact Hsecond |].
  split; [exact (Hsame' "name" ltac:(discriminate)) |].
  split; [exact (Hsame' "main" ltac:(discriminate)) |].
  split; [exact Htag' |].
  split; [exact (proj1 (Hmiss' true response [request] (or_introl eq_refl) H6 H5)) |].
  split; [exact H12 |].
  exact (proj1 (Hmiss'' false response [request] (or_intror Hread) H6 H5)).
Defined.

End WeatherWitness.

(** * Further properties *)

(** ** The TTL cache: keys, overwriting, clearing, cache information *)

Section TTLCacheMore.
Import Js CacheWithTTL.

Lemma get_other (c : CacheWithTTL.t) k k' t :
  k <> k' -> cache (get t k' c).2 !! k = cache c !! k.
Proof.
  intros Hne. unfold get.
  destruct (cache c !! k') as [e |] eqn:He; [| done].
  destruct (expiresAt e <? t); [| done]. cbn. by rewrite lookup_delete_ne.
Qed.

(** X1. Entries under different keys do not interfere: writing [k] leaves
    what [get] answers for another key [k'] as it was, and reading [k']
    (which may evict [k']) leaves the entry just written under [k], and the
    entry of every key other than [k'], in the store. *)
Theorem ttl_keys_independent (c : CacheWithTTL.t) k k' v t t' :
  k <> k' ->
  (get t' k' (set t k v c)).1 = (get t' k' c).1 /\
  cache (get t' k' (set t k v c)).2 !! k
    = Some {| value := v; expiresAt := t + ttlMs c |} /\
  (forall k'', k'' <> k' -> cache (get t' k' c).2 !! k'' = cache c !! k'').
Proof.
  intros Hne. split; [| split].
  - unfold get, set; cbn. rewrite lookup_insert_ne by done.
    destruct (cache c !! k') as [e |]; [| done].
    by destruct (expiresAt e <? t').
  - rewrite get_other by done. cbn. apply lookup_insert_eq.
  - intros k'' Hk''. by apply get_other.
Qed.

Lemma ttl_keys_independent_witness :
  let c := set 0 "minsk" (JNum 1) (CacheWithTTL.new None) in
  "brest" <> "minsk" /\
  (get 70000 "minsk" (set 50000 "brest" (JNum 2) c)).1 = JNull /\
  cache (get 70000 "minsk" (set 50000 "brest" (JNum 2) c)).2 !! "brest"
    = Some {| value := JNum 2; expiresAt := 110000 |}.
Proof.
  intros c.
  assert (H : "brest" <> "minsk") by discriminate.
  destruct (ttl_keys_independent c "brest" "minsk" (JNum 2) 50000 70000 H)
    as (Hread & Hkept & _).
  split; [exact H |]. split; [by rewrite Hread | exact Hkept].
Defined.

(** X2. A key that reads as [null] keeps reading as [null] at any later
    time, on the store as it was and on the store the first read left,
    until it is set again. *)
Theorem ttl_absent_stays_absent (c : CacheWithTTL.t) k t t' :
  t <= t' ->
  (get t k c).1 = JNull ->
  (get t' k c).1 = JNull /\ (get t' k (get t k c).2).1 = JNull.
Proof.
  intros Hle. unfold get.
  destruct (cache c !! k) as [e |] eqn:He; [| cbn; by rewrite He].
  destruct (Z.ltb_spec (expiresAt e) t) as [Hexp | Hfresh]; cbn.
  - intros _. rewrite lookup_delete_eq.
    by destruct (Z.ltb_spec (expiresAt e) t'); [| lia].
  - intros Hnull. rewrite He. by destruct (expiresAt e <? t').
Qed.

Lemma ttl_absent_stays_absent_witness :
  let c := set 0 "k" (JNum 7) (CacheWithTTL.new (Some 100)) in
  101 <= 500 /\
  (get 101 "k" c).1 = JNull /\
  (get 500 "k" c).1 = JNull /\
  (get 500 "k" (get 101 "k" c).2).1 = JNull.
Proof.
  intros c.
  assert (H1 : 101 <= 500) by lia.
  assert (H2 : (get 101 "k" c).1 = JNull) by reflexivity.
  destruct (ttl_absent_stays_absent c "k" 101 500 H1 H2) as [Ha Hb].
  split; [exact H1 |]. split; [exact H2 |]. split; [exact Ha | exact Hb].
Defined.

(** X3. The last write wins: setting a key twice leaves the store that the
    second [set] alone would leave, with the expiry counted from the second
    write. *)
Theorem ttl_set_overwrites (c : CacheWithTTL.t) k v1 v2 t1 t2 :
  set t2 k v2 (set t1 k v1 c) = set t2 k v2 c /\
  cache (set t2 k v2 (set t1 k v1 c)) !! k
    = Some {| value := v2; expiresAt := t2 + ttlMs c |}.
Proof.
  unfold set; cbn. rewrite insert_insert_eq. split; [done |].
  apply lookup_insert_eq.
Qed.

(** [clear] forgets every key and keeps the TTL: afterwards [get] gives
    [null], [has] gives [false] and [getCacheInfo] gives [null] for every
    key, and an entry written next expires one TTL after its write. *)
Theorem ttl_clear_forgets (c : CacheWithTTL.t) k v t t' :
  get t k (clear c) = (JNull, clear c) /\
  has t k (clear c) = (false, clear c) /\
  getCacheInfo t k (clear c) = None /\
  cache (set t' k v (clear c)) !! k
    = Some {| value := v; expiresAt := t' + ttlMs c |}.
Proof.
  assert (Hget : get t k (clear c) = (JNull, clear c)) by done.
  split; [exact Hget |]. split; [by rewrite has_get, Hget |].
  split; [done |]. cbn. apply lookup_insert_eq.
Qed.

Lemma ceil_div_bounds a :
  1000 * (ceil_div a 1000 - 1) < a <= 1000 * ceil_div a 1000.
Proof.
  unfold ceil_div.
  pose proof (Z.div_mod (- a) 1000 ltac:(lia)).
  pose proof (Z.mod_pos_bound (- a) 1000 ltac:(lia)). lia.
Qed.

(** X4. For a key in the store, [getCacheInfo] agrees with [get] at the same
    time: an entry it reports live is not past its expiry and is the one
    [get] returns, leaving the store as it is; an entry it reports expired is
    one for which [get] answers [null] and which [get] evicts. The remaining
    time is [expiresAt - now] for a live entry and 0 for an expired one,
    never negative, and the remaining seconds are the remaining milliseconds
    rounded up. *)
Theorem cache_info_agrees_with_get (c : CacheWithTTL.t) k e now :
  cache c !! k = Some e ->
  exists i,
    getCacheInfo now k c = Some i /\
    0 <= remainingMs i /\
    1000 * (remainingSec i - 1) < remainingMs i <= 1000 * remainingSec i /\
    (isExpired i = false ->
       now <= expiresAt e /\ remainingMs i = expiresAt e - now /\
       get now k c = (value e, c)) /\
    (isExpired i = true ->
       expiresAt e < now /\ remainingMs i = 0 /\ remainingSec i = 0 /\
       (get now k c).1 = JNull /\ cache (get now k c).2 !! k = None).
Proof.
  intros He. unfold getCacheInfo, get. rewrite He.
  eexists. split; [reflexivity |]. cbn.
  destruct (Z.ltb_spec (expiresAt e) now) as [Hexp | Hfresh].
  - split; [lia |]. split; [apply ceil_div_bounds |].
    split; [done |]. intros _. cbn. by rewrite lookup_delete_eq.
  - split; [lia |]. split; [apply ceil_div_bounds |].
    split; [done |]. done.
Qed.

Lemma cache_info_agrees_with_get_witness :
  let c := set 1000 "k" (JNum 7) (CacheWithTTL.new None) in
  cache c !! "k" = Some {| value := JNum 7; expiresAt := 61000 |} /\
  getCacheInfo 58500 "k" c
    = Some {| isExpired := false; remainingMs := 2500; remainingSec := 3 |}.
Proof.
  intros c.
  assert (H : cache c !! "k" = Some {| value := JNum 7; expiresAt := 61000 |})
    by (vm_compute; reflexivity).
  destruct (cache_info_agrees_with_get c "k" _ 58500 H) as (i & Hi & _).
  split; [exact H |]. rewrite Hi. vm_compute in Hi.
  by injection Hi as <-.
Defined.

End TTLCacheMore.

(** ** The ETag cache *)

Section ETagCacheMore.
Import Js ETagCache.

(** X5. What [set(url, etag, data)] stores is what the lookups give back:
    the validator, the payload, presence, and the time of the write in the
    cache information; it replaces whatever was stored for that URL, and
    the lookups of every other URL answer as before. *)
Theorem etag_cache_round_trip (c : ETagCache.t) url other etag0 data0 etag data
    t0 t now :
  other <> url ->
  let c1 := set t url etag data (set t0 url etag0 data0 c) in
  getETag url c1 = Some etag /\
  getData url c1 = data /\
  has url c1 = true /\
  getCacheInfo now url c1
    = Some {| hasETag := negb (String.eqb etag ""); stored_at := t;
              age := now - t |} /\
  c1 = set t url etag data c /\
  getETag other c1 = getETag other c /\
  getData other c1 = getData other c /\
  has other c1 = has other c.
Proof.
  intros Hne c1. subst c1.
  unfold getETag, getData, has, getCacheInfo, set; cbn.
  rewrite insert_insert_eq, lookup_insert_eq, lookup_insert_ne by done.
  repeat split; try done.
  all: try (apply bool_decide_eq_true; by eexists).
Qed.

Lemma etag_cache_round_trip_witness :
  "/cities?_page=2" <> "/cities?_page=1" /\
  getETag "/cities?_page=1"
    (set 20 "/cities?_page=1" "v2" JNull (set 10 "/cities?_page=1" "v1" JNull new))
    = Some "v2" /\
  has "/cities?_page=2"
    (set 20 "/cities?_page=1" "v2" JNull (set 10 "/cities?_page=1" "v1" JNull new))
    = false.
Proof.
  assert (H : "/cities?_page=2" <> "/cities?_page=1") by discriminate.
  destruct (etag_cache_round_trip new "/cities?_page=1" "/cities?_page=2"
              "v1" JNull "v2" JNull 10 20 30 H)
    as (Hetag & _ & _ & _ & _ & _ & _ & Hhas).
  split; [exact H |]. split; [exact Hetag |]. rewrite Hhas. reflexivity.
Defined.

(** No lookup changes the store (in the embedding they return no store);
    [clear] answers every lookup as for a URL never stored. *)
Lemma etag_clear_forgets (c : ETagCache.t) url now :
  getETag url (clear c) = None /\ getData url (clear c) = JNull /\
  has url (clear c) = false /\ getCacheInfo now url (clear c) = None.
Proof. done. Qed.

End ETagCacheMore.

(** ** The retry loop: budget, back-off, typed failures *)

Section RetryBudget.
Import Js Errors Fetch.
Variable net : network.
Variable url : string.
Variable opts : options.

#[local] Abbreviation request := (EvFetch url (headers opts)).

Lemma loop_sends fuel k lastError c evs :
  Z.of_nat k <= retries opts ->
  retry_loop net url opts fuel k lastError = Some (c, evs) ->
  (1 <= requests evs)%nat.
Proof.
  intros Hk. destruct fuel as [| fuel].
  - cbn [retry_loop]. by destruct (Z.leb_spec (Z.of_nat k) (retries opts)); [| lia].
  - rewrite loop_body by done.
    destruct (match try_block net url opts k with
              | Returned _ => _ | Thrown _ => _ end) as [[c' evs'] |]; [| done].
    intros [= <- <-]. cbn. lia.
Qed.

Lemma loop_budget fuel k lastError c evs :
  retry_loop net url opts fuel k lastError = Some (c, evs) ->
  Z.of_nat (requests evs) <= Z.max 0 (retries opts + 1 - Z.of_nat k).
Proof.
  revert k lastError c evs.
  induction fuel as [| fuel IH]; intros k lastError c evs.
  - cbn [retry_loop]. destruct (Z.leb_spec (Z.of_nat k) (retries opts)); [done |].
    intros [= <- <-]. cbn. lia.
  - destruct (Z.leb_spec (Z.of_nat k) (retries opts)) as [Hk | Hk].
    + rewrite loop_body by done.
      destruct (try_block net url opts k) as [ok | error].
      { intros [= <- <-]. cbn. lia. }
      destruct (signal_aborted opts k || String.eqb (name error) "AbortError").
      { intros [= <- <-]. cbn. lia. }
      destruct (isBusinessError error).
      { intros [= <- <-]. cbn. lia. }
      destruct (Z.ltb_spec (Z.of_nat k) (retries opts)) as [Hlt | Hge]; cbn [andb].
      * destruct (isNetworkError error); [| intros [= <- <-]; cbn; lia].
        destruct (retry_loop net url opts fuel (S k) (Some error))
          as [[c' evs'] |] eqn:Hnext; [| done].
        apply IH in Hnext. intros [= <- <-].
        cbn [app requests foldr]. fold (requests evs'). lia.
      * intros [= <- <-]. cbn. lia.
    + cbn [retry_loop].
      destruct (Z.leb_spec (Z.of_nat k) (retries opts)); [lia |].
      intros [= <- <-]. cbn. lia.
Qed.



(** X7. With a negative [retries] the loop body never runs: no request is
    sent, and the call fails with the [TypeError] of reading a flag of the
    undefined [lastError], an error of neither class. *)
Theorem negative_retries_send_nothing :
  retries opts < 0 ->
  exists error,
    fetchWithRetry net url opts = Some (Thrown error, []) /\
    name error = "TypeError" /\
    isNetworkError error = false /\ isBusinessError error = false.
Proof.
  intros Hneg.
  exists (platform_error "TypeError"
            "Cannot read properties of undefined (reading 'isNetworkError')").
  split; [| done]. unfold fetchWithRetry. destruct (Z.to_nat (retries opts + 1)); cbn [retry_loop];
    by destruct (Z.leb_spec (Z.of_nat 0) (retries opts)); [lia |].
Qed.

Lemma loop_throws_typed fuel k lastError error evs :
  Z.of_nat k <= retries opts ->
  retry_loop net url opts fuel k lastError = Some (Thrown error, evs) ->
  isNetworkError error || isBusinessError error = true.
Proof.
  revert k lastError evs.
  induction fuel as [| fuel IH]; intros k lastError evs Hk.
  - cbn [retry_loop]. by destruct (Z.leb_spec (Z.of_nat k) (retries opts)); [| lia].
  - rewrite loop_body by done.
    destruct (try_block net url opts k) as [ok | thrown]; [done |].
    destruct (signal_aborted opts k || String.eqb (name thrown) "AbortError").
    { by intros [= <- <-]. }
    destruct (isBusinessError thrown) eqn:Hb.
    { intros [= <- <-]. by rewrite Hb, orb_true_r. }
    destruct (Z.ltb_spec (Z.of_nat k) (retries opts)) as [Hlt | Hge]; cbn [andb].
    + destruct (isNetworkError thrown) eqn:Hn.
      * destruct (retry_loop net url opts fuel (S k) (Some thrown))
          as [[c' evs'] |] eqn:Hnext; [| done].
        intros [= -> <-]. apply IH in Hnext; [done | lia].
      * unfold after_loop. rewrite Hn, Hb. by intros [= <- <-].
    + unfold after_loop. destruct (isNetworkError thrown) eqn:Hn; rewrite ?Hb.
      * intros [= <- <-]. by rewrite Hn.
      * by intros [= <- <-].
Qed.

(** X8. With [retries >= 0], whatever makes a call fail, the error it throws
    is of one of the two classes: an error of the platform never escapes
    unwrapped. *)
Theorem failure_is_classified error evs :
  0 <= retries opts ->
  fetchWithRetry net url opts = Some (Thrown error, evs) ->
  isNetworkError error || isBusinessError error = true.
Proof. intros Hretries. by apply loop_throws_typed. Qed.

End RetryBudget.

Section RetryOutcomes.
Import Js Errors Fetch.
Variable net : network.
Variable url : string.
Variable opts : options.

#[local] Abbreviation request := (EvFetch url (headers opts)).

(** X9. Against a server that keeps answering 500 or above, the caller's
    signal not firing, a call uses its whole budget: it sends
    [retries + 1] requests, sleeps between them, and throws the
    [NetworkError] classified from the last answer, which carries its
    status. *)
Theorem server_errors_exhaust_retries (r : nat -> Response.t) :
  0 <= retries opts ->
  (forall k, net k url (headers opts) = Resolved (r k)) ->
  (forall k, 500 <= Response.status (r k)) ->
  (forall k, signal_aborted opts k = false) ->
  let last := Z.to_nat (retries opts) in
  let evs := (rounds url opts last ++ [request])%list in
  fetchWithRetry net url opts = Some (Thrown (classify (r last)), evs) /\
  Z.of_nat (requests evs) = retries opts + 1 /\
  isNetworkError (classify (r last)) = true /\
  statusCode (classify (r last)) = JNum (Response.status (r last)).
Proof.
  intros Hretries Hnet Hstatus Hsig last evs. subst evs.
  assert (Hclass : forall k, classify (r k) =
    NetworkError ("Ошибка сервера " +:+ pretty (Response.status (r k)) +:+ ": "
                    +:+ Response.statusText (r k)) (JNum (Response.status (r k))))
    by (intros k; by apply classify_server).
  split; [| split; [| by rewrite Hclass]].
  - apply settles_at.
    + intros j Hj. apply retried_server_error with (r j); [done.. | lia].
    + lia.
    + intros fuel lastError.
      rewrite (loop_break net url opts fuel last lastError (classify (r last))).
      * unfold after_loop. by rewrite Hclass.
      * lia.
      * apply try_block_rejects; [done | apply not_ok; specialize (Hstatus last); lia].
      * by rewrite Hsig, classify_name.
      * by rewrite Hclass.
      * destruct (Z.ltb_spec (Z.of_nat last) (retries opts)); [lia | done].
  - rewrite requests_app, requests_rounds. cbn. lia.
Qed.

Lemma loop_returns_last fuel k lastError result evs :
  retry_loop net url opts fuel k lastError = Some (Returned result, evs) ->
  exists n r,
    requests evs = S n /\
    net (k + n)%nat url (headers opts) = Resolved r /\
    Response.ok r = true /\
    Response.json r = inl (data result) /\
    fetched_headers result = Response.headers r /\
    fetched_status result = Response.status r.
Proof.
  revert k lastError evs.
  induction fuel as [| fuel IH]; intros k lastError evs; cbn [retry_loop].
  - case_match; [done |]. unfold after_loop. by repeat case_match.
  - case_match; [| unfold after_loop; by repeat case_match].
    destruct (try_block net url opts k) as [ok | error] eqn:Htry.
    + intros [= <- <-]. exists 0%nat. unfold try_block in Htry.
      destruct (net k url (headers opts)) as [r | e] eqn:Hnet; [| done].
      destruct (Response.ok r) eqn:Hok; [| done]. cbn in Htry.
      destruct (Response.json r) as [d | e] eqn:Hjson; [| done].
      injection Htry as <-. exists r. rewrite Nat.add_0_r. by repeat split.
    + repeat case_match; try done; cbn.
      * destruct (retry_loop net url opts fuel (S k) (Some error))
          as [[c t] |] eqn:Hnext; [| done].
        intros [= -> <-].
        destruct (IH _ _ _ Hnext) as (n & r & Hreq & Hnet & Hrest).
        exists (S n), r. cbn [app requests foldr]. fold (requests t).
        rewrite Hreq. replace (k + S n)%nat with (S k + n)%nat by lia.
        split; [done |]. split; [done | exact Hrest].
      * unfold after_loop. by repeat case_match.
Qed.

(** X10. What a call returns comes from the answer to the last request it
    sent: that answer had a 2xx status, the data is its parsed body, and the
    headers and status returned are its own. *)
Theorem returned_from_last_response result evs :
  fetchWithRetry net url opts = Some (Returned result, evs) ->
  exists n r,
    requests evs = S n /\
    net n url (headers opts) = Resolved r /\
    200 <= Response.status r <= 299 /\
    Response.json r = inl (data result) /\
    fetched_headers result = Response.headers r /\
    fetched_status result = Response.status r.
Proof.
  intros Hrun. apply loop_returns_last in Hrun.
  destruct Hrun as (n & r & Hreq & Hnet & Hok & Hrest).
  exists n, r. split; [done |]. split; [done |]. split; [| done].
  unfold Response.ok in Hok. apply andb_true_iff in Hok as [Hlo Hhi]. lia.
Qed.

(** X11. A 2xx answer whose body cannot be parsed is not retried: with the
    caller's signal not fired and the parse error one of the platform (not
    an abort), the call fails after that request with the error wrapped in a
    [NetworkError] whose message names [retries + 1] attempts, however many
    were made. *)
Theorem unparsable_body_not_retried k r error :
  reaches net url opts k ->
  Z.of_nat k <= retries opts ->
  net k url (headers opts) = Resolved r ->
  Response.ok r = true ->
  Response.json r = inr error ->
  isNetworkError error = false ->
  isBusinessError error = false ->
  String.eqb (name error) "AbortError" = false ->
  signal_aborted opts k = false ->
  fetchWithRetry net url opts =
    Some (Thrown (NetworkError
                    ("Не удалось выполнить запрос после "
                       +:+ pretty (retries opts + 1) +:+ " попыток: "
                       +:+ message error) JUndefined),
          (rounds url opts k ++ [request])%list).
Proof.
  intros Hreach Hk Hnet Hok Hjson Hn Hb Hname Hsig.
  apply settles_at; [done.. |]. intros fuel lastError.
  rewrite (loop_break net url opts fuel k lastError error); try done.
  - unfold after_loop. by rewrite Hn, Hb.
  - unfold try_block. by rewrite Hnet, Hok, Hjson.
  - by rewrite Hsig, Hname.
  - by rewrite Hn, andb_false_r.
Qed.

End RetryOutcomes.

Section RetryWitnesses.
Import Js Errors Fetch Examples.


Lemma negative_retries_send_nothing_witness :
  retries (with_retries (-1) None) < 0 /\
  exists error,
    fetchWithRetry (always weather_ok) "u" (with_retries (-1) None)
      = Some (Thrown error, []) /\
    name error = "TypeError" /\
    isNetworkError error = false /\ isBusinessError error = false.
Proof.
  assert (H : retries (with_retries (-1) None) < 0) by (cbn; lia).
  split; [exact H |].
  exact (negative_retries_send_nothing (always weather_ok) "u" _ H).
Defined.

Lemma failure_is_classified_witness :
  let error :=
    NetworkError "Не удалось выполнить запрос после 3 попыток: Failed to fetch"
      JUndefined in
  0 <= retries defaults /\
  fetchWithRetry offline "u" defaults = Some (Thrown error, [EvFetch "u" []]) /\
  isNetworkError error || isBusinessError error = true.
Proof.
  intros error.
  assert (H1 : 0 <= retries defaults) by (cbn; lia).
  assert (H2 : fetchWithRetry offline "u" defaults
               = Some (Thrown error, [EvFetch "u" []])) by reflexivity.
  split; [exact H1 |]. split; [exact H2 |].
  exact (failure_is_classified offline "u" defaults error _ H1 H2).
Defined.

Lemma server_errors_exhaust_retries_witness :
  0 <= retries defaults /\
  (forall k, always server_error k "u" (headers defaults) = Resolved server_error) /\
  500 <= Response.status server_error /\
  fetchWithRetry (always server_error) "u" defaults =
    Some (Thrown (classify server_error),
          [EvFetch "u" []; EvSleep 500; EvFetch "u" []; EvSleep 1000;
           EvFetch "u" []]).
Proof.
  assert (H1 : 0 <= retries defaults) by (cbn; lia).
  assert (H2 : forall k, always server_error k "u" (headers defaults)
                         = Resolved ((fun _ => server_error) k))
    by (intros k; reflexivity).
  assert (H3 : forall k : nat, 500 <= Response.status ((fun _ => server_error) k))
    by (intros k; cbn; lia).
  assert (H4 : forall k, signal_aborted defaults k = false)
    by (intros k; reflexivity).
  split; [exact H1 |]. split; [exact H2 |]. split; [exact (H3 0%nat) |].
  exact (proj1 (server_errors_exhaust_retries (always server_error) "u" defaults
                  (fun _ => server_error) H1 H2 H3 H4)).
Defined.

Lemma returned_from_last_response_witness :
  let result := {| data := moscow; fetched_headers := []; fetched_status := 200 |} in
  let evs := [EvFetch "u" []; EvSleep 500; EvFetch "u" []; EvSleep 1000;
              EvFetch "u" []] in
  fetchWithRetry flaky "u" defaults = Some (Returned result, evs) /\
  exists n r,
    requests evs = S n /\
    flaky n "u" (headers defaults) = Resolved r /\
    200 <= Response.status r <= 299 /\
    Response.json r = inl (data result) /\
    fetched_headers result = Response.headers r /\
    fetched_status result = Response.status r.
Proof.
  intros result evs.
  assert (H : fetchWithRetry flaky "u" defaults = Some (Returned result, evs))
    by reflexivity.
  split; [exact H |].
  exact (returned_from_last_response flaky "u" defaults result evs H).
Defined.

Lemma unparsable_body_not_retried_witness :
  let net := always broken_body in
  let error := platform_error "SyntaxError" "Unexpected end of JSON input" in
  reaches net "u" defaults 0 /\
  Z.of_nat 0 <= retries defaults /\
  net 0%nat "u" (headers defaults) = Resolved broken_body /\
  Response.ok broken_body = true /\
  Response.json broken_body = inr error /\
  fetchWithRetry net "u" defaults =
    Some (Thrown (NetworkError
            "Не удалось выполнить запрос после 3 попыток: Unexpected end of JSON input"
            JUndefined),
          [EvFetch "u" []]).
Proof.
  intros net error.
  assert (H1 : reaches net "u" defaults 0) by (intros j Hj; lia).
  assert (H2 : Z.of_nat 0 <= retries defaults) by (cbn; lia).
  assert (H3 : net 0%nat "u" (headers defaults) = Resolved broken_body)
    by reflexivity.
  assert (H4 : Response.ok broken_body = true) by reflexivity.
  assert (H5 : Response.json broken_body = inr error) by reflexivity.
  split; [exact H1 |]. split; [exact H2 |]. split; [exact H3 |].
  split; [exact H4 |]. split; [exact H5 |].
  exact (unparsable_body_not_retried net "u" defaults 0 broken_body error
           H1 H2 H3 H4 H5 eq_refl eq_refl eq_refl eq_refl).
Defined.

End RetryWitnesses.

(** ** Object spread *)

Section Spread.
Import Js.






(** The two halves of U+1F600 between two letters. *)
Lemma astral_character_spreads_in_two :
  let face := String (ascii_of_nat 240) (String (ascii_of_nat 159)
                (String (ascii_of_nat 152) (String (ascii_of_nat 128) ""))) in
  spread (JStr ("a" +:+ face +:+ "b"))
    = [("0", JStr "a"); ("1", JStr (three_bytes 55357));
       ("2", JStr (three_bytes 56832)); ("3", JStr "b")] /\
  str_length ("a" +:+ face +:+ "b") = 4 /\
  spread (JArr [JNum 7; JNull]) = [("0", JNum 7); ("1", JNull)].
Proof. repeat split. Qed.

End Spread.

(** ** The weather client: failures, clearing, cache information *)

Section WeatherMore.
Import Js Errors Fetch WeatherApi.
Variable toLowerCase : string -> string.

#[local] Abbreviation getWeather := (getWeatherByCity toLowerCase).
#[local] Abbreviation key := (cacheKey toLowerCase).

Lemma remap_classified cityName error :
  isNetworkError (remap cityName error)
  || isBusinessError (remap cityName error) = true.
Proof.
  unfold remap. repeat case_match; try done.
  match goal with H : isNetworkError error = true |- _ => by rewrite H end.
Qed.

(** The lookup in three steps: the cache read, the fetch, the store. *)
Lemma getWeatherByCity_steps net t_read t_write cityName ignoreCache signal cache :
  getWeather net t_read t_write cityName ignoreCache signal cache =
    let '(cached, cache1) :=
      read_cache toLowerCase t_read cityName ignoreCache cache in
    match settle net cityName ignoreCache signal cached with
    | None => None
    | Some (c, evs, stored) =>
        Some (c, evs,
              match stored with
              | Some payload => CacheWithTTL.set t_write (key cityName) payload cache1
              | None => cache1
              end)
    end.
Proof.
  unfold getWeatherByCity, read_cache, settle.
  destruct ignoreCache; cbn [negb andb].
  - destruct (encodeURIComponent cityName) as [encoded |]; [| done].
    by destruct (fetchWithRetry _ _ _) as [[[response | error] evs] |].
  - destruct (CacheWithTTL.get t_read (key cityName) cache) as [cached cache1].
    destruct (truthy cached); [done |].
    destruct (encodeURIComponent cityName) as [encoded |]; [| done].
    by destruct (fetchWithRetry _ _ _) as [[[response | error] evs] |].
Qed.

(** What the cache read of a lookup does to the cache: nothing, or the
    eviction of the entry of the key read when that entry had expired. *)
Lemma read_cache_effect t_read cityName ignoreCache (cache : CacheWithTTL.t) :
  let cache1 := (read_cache toLowerCase t_read cityName ignoreCache cache).2 in
  CacheWithTTL.ttlMs cache1 = CacheWithTTL.ttlMs cache /\
  (forall k, k <> key cityName ->
     CacheWithTTL.cache cache1 !! k = CacheWithTTL.cache cache !! k) /\
  (CacheWithTTL.cache cache1 !! key cityName
     = CacheWithTTL.cache cache !! key cityName \/
   (CacheWithTTL.cache cache1 !! key cityName = None /\
    exists e, CacheWithTTL.cache cache !! key cityName = Some e /\
              CacheWithTTL.expiresAt e < t_read)) /\
  (ignoreCache = true -> cache1 = cache).
Proof.
  unfold read_cache. destruct ignoreCache; cbn [negb]; [by auto |].
  unfold CacheWithTTL.get.
  destruct (CacheWithTTL.cache cache !! key cityName) as [e |] eqn:He;
    [| by auto].
  destruct (Z.ltb_spec (CacheWithTTL.expiresAt e) t_read) as [Hlt | Hge]; cbn.
  - split; [done |].
    split; [intros k Hk; by rewrite lookup_delete_ne |].
    split; [| done]. right. split; [apply lookup_delete_eq | by eauto].
  - by auto.
Qed.

(** X12. A lookup that fails for a name that can be percent-encoded throws
    an error of one of the two classes, whatever made it fail. For a name
    that cannot (it holds a surrogate that is not part of a pair), the
    lookup that misses the cache throws the [URIError] of
    [encodeURIComponent] as it is, an error of neither class, before any
    request. *)
Theorem weather_failure_is_classified net t_read t_write cityName ignoreCache
    signal cache error evs cache' :
  getWeather net t_read t_write cityName ignoreCache signal cache
    = Some (Thrown error, evs, cache') ->
  (lone_surrogate cityName = false ->
     isNetworkError error || isBusinessError error = true) /\
  (lone_surrogate cityName = true ->
     error = URIError /\ evs = [] /\
     isNetworkError error || isBusinessError error = false).
Proof.
  rewrite getWeatherByCity_steps.
  destruct (read_cache _ _ _ _ _) as [cached cache1]. unfold settle.
  destruct (negb ignoreCache && truthy cached); [done |].
  unfold encodeURIComponent. destruct (lone_surrogate cityName).
  - by intros [= <- <- _].
  - destruct (fetchWithRetry _ _ _) as [[[response | thrown] evs0] |];
      [done | | done].
    intros [= <- _ _]. split; [intros _; apply remap_classified | done].
Qed.

(** X13. A lookup that fails stores nothing and leaves the cache as its
    cache read left it: the entries of all other keys are as they were, and
    the entry of the key read is as it was or, if it had expired by the
    time of the read, gone. With [ignoreCache] the cache is left as it was,
    so that a refresh that fails does not cost the entry it was to
    replace. *)
Theorem weather_failure_stores_nothing net t_read t_write cityName ignoreCache
    signal (cache cache' : CacheWithTTL.t) error evs :
  getWeather net t_read t_write cityName ignoreCache signal cache
    = Some (Thrown error, evs, cache') ->
  cache' = (read_cache toLowerCase t_read cityName ignoreCache cache).2 /\
  CacheWithTTL.ttlMs cache' = CacheWithTTL.ttlMs cache /\
  (forall k, k <> key cityName ->
     CacheWithTTL.cache cache' !! k = CacheWithTTL.cache cache !! k) /\
  (CacheWithTTL.cache cache' !! key cityName
     = CacheWithTTL.cache cache !! key cityName \/
   (CacheWithTTL.cache cache' !! key cityName = None /\
    exists e, CacheWithTTL.cache cache !! key cityName = Some e /\
              CacheWithTTL.expiresAt e < t_read)) /\
  (ignoreCache = true -> cache' = cache).
Proof.
  intros Hrun.
  assert (Hleft :
    cache' = (read_cache toLowerCase t_read cityName ignoreCache cache).2).
  { revert Hrun. rewrite getWeatherByCity_steps.
    destruct (read_cache _ _ _ _ _) as [cached cache1]. unfold settle.
    destruct (negb ignoreCache && truthy cached); [done |].
    destruct (encodeURIComponent cityName) as [encoded |];
      [| by intros [= _ _ <-]].
    destruct (fetchWithRetry _ _ _) as [[[response | thrown] evs0] |];
      [done | | done].
    by intros [= _ _ <-]. }
  split; [exact Hleft |]. rewrite Hleft. apply read_cache_effect.
Qed.

(** X14. For a name that can be percent-encoded, a 404, 401, 403 or 429
    answer (the caller's signal not fired) makes the lookup fail after that
    request with a [BusinessError] of the client's own: code
    [CITY_NOT_FOUND] for 404, [API_KEY_ERROR] for 401 and for 403,
    [RATE_LIMIT_EXCEEDED] for 429; its [statusCode] is [null] in every
    case, 429 included. *)
Theorem weather_error_codes net t_read t_write cityName ignoreCache signal
    cache k r :
  let url := weatherUrl cityName in
  let opts := requestOptions signal in
  lone_surrogate cityName = false ->
  reaches net url opts k ->
  Z.of_nat k <= 2 ->
  net k url (headers opts) = Resolved r ->
  signal_aborted opts k = false ->
  truthy (read_cache toLowerCase t_read cityName ignoreCache cache).1 = false ->
  let status := Response.status r in
  status = 404 \/ status = 401 \/ status = 403 \/ status = 429 ->
  exists error,
    getWeather net t_read t_write cityName ignoreCache signal cache
      = Some (Thrown error,
              (rounds url opts k ++ [EvFetch url (headers opts)])%list,
              (read_cache toLowerCase t_read cityName ignoreCache cache).2) /\
    name error = "BusinessError" /\
    isBusinessError error = true /\
    statusCode error = JNull /\
    code error =
      JStr (if status =? 404 then "CITY_NOT_FOUND"
            else if status =? 429 then "RATE_LIMIT_EXCEEDED"
            else "API_KEY_ERROR").
Proof.
  intros url opts Hname Hreach Hk Hnet Hsig Hmiss status Hstatus. subst status.
  assert (Htry : try_block net url opts k = Thrown (classify r))
    by (apply try_block_rejects; [done | apply not_ok; lia]).
  assert (Hb : isBusinessError (classify r) = true).
  { destruct Hstatus as [Hs | [Hs | [Hs | Hs]]].
    - by rewrite classify_not_found.
    - rewrite classify_auth; auto.
    - rewrite classify_auth; auto.
    - by rewrite classify_rate_limit. }
  assert (Hrun : fetchWithRetry net url opts =
    Some (Thrown (classify r),
          (rounds url opts k ++ [EvFetch url (headers opts)])%list)).
  { apply business_at; [done | done | done | | done].
    by rewrite Hsig, classify_name. }
  exists (remap cityName (classify r)). split.
  - rewrite getWeatherByCity_steps.
    destruct (read_cache toLowerCase t_read cityName ignoreCache cache)
      as [cached cache1]. cbn [fst snd] in *.
    unfold settle. rewrite Hmiss, andb_false_r.
    rewrite (encode_ok cityName Hname).
    change (weatherUrlOf (escape cityName)) with url. fold opts.
    by rewrite Hrun.
  - destruct Hstatus as [Hs | [Hs | [Hs | Hs]]]; rewrite Hs.
    + by rewrite classify_not_found.
    + rewrite classify_auth by auto. by rewrite Hs.
    + rewrite classify_auth by auto. by rewrite Hs.
    + by rewrite classify_rate_limit.
Qed.

Lemma get_truthy (c : CacheWithTTL.t) t k :
  truthy (CacheWithTTL.get t k c).1 = true ->
  (CacheWithTTL.get t k c).2 = c /\ is_Some (CacheWithTTL.cache c !! k).
Proof.
  unfold CacheWithTTL.get.
  destruct (CacheWithTTL.cache c !! k) as [e |]; [| done].
  destruct (CacheWithTTL.expiresAt e <? t); [done |]. by eauto.
Qed.

(** X15. After a lookup that returned, from the cache or from the network,
    the cache holds an entry for the city: [getCacheInfo] for that name, or
    for a name with the same lower-casing, is not [null], whenever it is
    asked. *)
Theorem cache_info_after_lookup net t_read t_write cityName other ignoreCache
    signal cache result evs cache' now :
  getWeather net t_read t_write cityName ignoreCache signal cache
    = Some (Returned result, evs, cache') ->
  toLowerCase other = toLowerCase cityName ->
  is_Some (getCacheInfo toLowerCase now other cache').
Proof.
  intros Hrun Hsame.
  assert (Hentry : is_Some (CacheWithTTL.cache cache' !! key cityName)).
  { revert Hrun. unfold getWeatherByCity.
    destruct ignoreCache; cbn [negb andb].
    - destruct (encodeURIComponent cityName) as [encoded |]; [| done].
      destruct (fetchWithRetry _ _ _) as [[[response | thrown] evs0] |];
        [| done..].
      intros [= _ _ <-]. cbn. rewrite lookup_insert_eq. by eexists.
    - destruct (CacheWithTTL.get t_read (key cityName) cache)
        as [cached cache1] eqn:Hget.
      destruct (truthy cached) eqn:Htruthy.
      + intros [= _ _ <-].
        pose proof (get_truthy cache t_read (key cityName)) as Hhit.
        rewrite Hget in Hhit. cbn in Hhit.
        destruct (Hhit Htruthy) as [-> Hsome]. exact Hsome.
      + destruct (encodeURIComponent cityName) as [encoded |]; [| done].
        destruct (fetchWithRetry _ _ _) as [[[response | thrown] evs0] |];
          [| done..].
        intros [= _ _ <-]. cbn. rewrite lookup_insert_eq. by eexists. }
  unfold getCacheInfo, CacheWithTTL.getCacheInfo, cacheKey. rewrite Hsame.
  destruct Hentry as [e He]. unfold cacheKey in He. rewrite He. by eexists.
Qed.

(** X16. After [clearCache] a lookup does not answer from the cache. For a
    name that can be percent-encoded it goes to the network and sends at
    least one request; for a name that cannot, it throws the [URIError]
    with no request sent. What it returns is tagged [fromCache = false]. *)
Theorem lookup_after_clear net t_read t_write cityName signal cache c evs cache' :
  getWeather net t_read t_write cityName false signal (clearCache cache)
    = Some (c, evs, cache') ->
  (lone_surrogate cityName = false -> (1 <= requests evs)%nat) /\
  (lone_surrogate cityName = true -> c = Thrown URIError /\ evs = []) /\
  (forall result, c = Returned result ->
     get_prop "fromCache" result = JBool false).
Proof.
  unfold getWeatherByCity, clearCache. cbn [negb andb].
  unfold encodeURIComponent. destruct (lone_surrogate cityName).
  { by intros [= <- <- _]. }
  destruct (fetchWithRetry _ _ _) as [[[response | thrown] evs0] |] eqn:Hrun;
    [| | done].
  - intros [= <- <- _]. split; [| split; [done |]].
    + intros _. apply loop_sends in Hrun; [done | cbn; lia].
    + intros result [= <-]. apply get_set_prop.
  - intros [= <- <- _]. split; [| done].
    intros _. apply loop_sends in Hrun; [done | cbn; lia].
Qed.

End WeatherMore.

(** ** The batch lookup *)

Section Batch.
Import Js Errors Fetch WeatherApi.
Variable toLowerCase : string -> string.

#[local] Abbreviation getWeather := (getWeatherByCity toLowerCase).










End Batch.

Section BatchWitness.
Import Js Errors Fetch WeatherApi Examples.


End BatchWitness.

(** ** Numbers and their decimal text *)

Section Decimal.
Import Js.

Lemma small_cases (m : N) : (m < 10)%N ->
  m = 0%N \/ m = 1%N \/ m = 2%N \/ m = 3%N \/ m = 4%N \/ m = 5%N \/ m = 6%N \/
  m = 7%N \/ m = 8%N \/ m = 9%N.
Proof. lia. Qed.

Lemma digit_of_pretty_char (m : N) :
  (m < 10)%N -> digit_of 10 (pretty_N_char m) = Some (Z.of_N m).
Proof.
  intros Hm. destruct (small_cases m Hm) as [-> | [-> | [-> | [-> | [-> | [-> | [-> | [-> | [-> | ->]]]]]]]]]; reflexivity.
Qed.

Lemma digits_pretty_go (x : N) s :
  digits 10 (pretty_N_go x s) None
  = digits 10 s (if decide (x = 0%N) then None else Some (Z.of_N x)).
Proof.
  revert s. induction (N.lt_wf_0 x) as [x _ IH]; intros s.
  destruct (decide (x = 0%N)) as [-> | Hx]; [by rewrite pretty_N_go_0 |].
  rewrite pretty_N_go_step by lia.
  rewrite IH by (apply N.div_lt; lia).
  cbn [digits]. rewrite digit_of_pretty_char by (apply N.mod_lt; lia).
  f_equal. f_equal.
  pose proof (N.div_mod x 10 ltac:(lia)) as Hdm.
  destruct (decide ((x `div` 10)%N = 0%N)) as [H0 | H0]; cbn [default].
  - rewrite Hdm at 2. rewrite H0, N2Z.inj_add, N2Z.inj_mul. reflexivity.
  - rewrite Hdm at 3. rewrite N2Z.inj_add, N2Z.inj_mul.
    rewrite (Z.mul_comm (Z.of_N 10)). reflexivity.
Qed.

Lemma pretty_go_head (x : N) s :
  (0 < x)%N ->
  exists d rest, (1 <= d <= 9)%N /\ pretty_N_go x s = String (pretty_N_char d) rest.
Proof.
  revert s. induction (N.lt_wf_0 x) as [x _ IH]; intros s Hx.
  rewrite pretty_N_go_step by done.
  destruct (decide ((x `div` 10)%N = 0%N)) as [H0 | H0].
  - rewrite H0, pretty_N_go_0. exists (x `mod` 10)%N, s. split; [| done].
    pose proof (N.div_mod x 10 ltac:(lia)) as Hdm.
    pose proof (N.mod_lt x 10 ltac:(lia)) as Hlt.
    rewrite H0 in Hdm. revert Hdm Hlt. generalize (x `mod` 10)%N. lia.
  - apply IH; [apply N.div_lt; lia | by apply N.neq_0_lt_0].
Qed.

Lemma parseInt_digits (x : N) :
  (0 < x)%N ->
  skip_spaces (pretty_N_go x "") = pretty_N_go x "" /\
  unsigned (pretty_N_go x "") = Some (Z.of_N x) /\
  exists c rest, pretty_N_go x "" = String c rest /\ c <> "-"%char /\ c <> "+"%char.
Proof.
  intros Hx. pose proof (digits_pretty_go x "") as Hd.
  destruct (decide (x = 0%N)); [lia |]. cbn [digits] in Hd.
  destruct (pretty_go_head x "" Hx) as (d & rest & Hd19 & Hhead).
  rewrite Hhead in *.
  assert (d = 1 \/ d = 2 \/ d = 3 \/ d = 4 \/ d = 5 \/ d = 6 \/ d = 7 \/ d = 8 \/ d = 9)%N
    as Hcases by lia.
  destruct Hcases as [-> | [-> | [-> | [-> | [-> | [-> | [-> | [-> | ->]]]]]]]];
    (split; [reflexivity |]; split; [exact Hd |]; eexists _, _; split; [reflexivity |]; split; discriminate).
Qed.

(** What [parseInt] reads back from the decimal text of an integer is the
    double nearest to it. *)
Lemma parseInt_pretty (n : Z) : parseInt (pretty n) = of_integer n.
Proof.
  destruct n as [| p | p]; [reflexivity | |].
  - unfold pretty, pretty_Z, pretty, pretty_positive, pretty, pretty_N.
    destruct (decide (N.pos p = 0%N)); [done |].
    destruct (parseInt_digits (N.pos p) ltac:(lia)) as (Hskip & Hun & c & rest & Hs & Hm & Hp).
    unfold parseInt. rewrite Hskip. rewrite Hs in *.
    assert (Hsign : (match String c rest with
              | String "-" r => (-1, r) | String "+" r => (1, r) | _ => (1, String c rest) end)
              = (1, String c rest)).
    { destruct c as [[] [] [] [] [] [] [] []]; try done. }
    rewrite Hsign, Hun. reflexivity.
  - unfold pretty, pretty_Z, pretty, pretty_positive, pretty, pretty_N.
    destruct (decide (N.pos p = 0%N)); [done |].
    destruct (parseInt_digits (N.pos p) ltac:(lia)) as (Hskip & Hun & _).
    unfold parseInt.
    change ("-" +:+ pretty_N_go (N.pos p) "")
      with (String "-" (pretty_N_go (N.pos p) "")).
    change (skip_spaces (String "-" (pretty_N_go (N.pos p) "")))
      with (String "-" (pretty_N_go (N.pos p) "")).
    cbv beta iota zeta. rewrite Hun. reflexivity.
Qed.

Lemma pretty_nonempty (n : Z) : String.eqb (pretty n) "" = false.
Proof.
  destruct n as [| p | p]; [done | | done].
  unfold pretty, pretty_Z, pretty, pretty_positive, pretty, pretty_N.
  destruct (decide (N.pos p = 0%N)); [done |].
  destruct (parseInt_digits (N.pos p) ltac:(lia)) as (_ & _ & c & rest & -> & _).
  done.
Qed.

(** The integers up to [2^53] are doubles. *)
Lemma of_integer_small (n : Z) : Z.abs n <= 2 ^ 53 -> of_integer n = JNum n.
Proof.
  intros Hn. destruct (Z.eq_dec (Z.abs n) (2 ^ 53)) as [Heq | Hne].
  - assert (n = 2 ^ 53 \/ n = - 2 ^ 53) as [-> | ->] by lia; reflexivity.
  - assert (Hlt : (Z.abs n <? 2 ^ 53) = true) by (apply Z.ltb_lt; lia).
    assert (Hbig : (2 ^ 1024 <=? Z.abs n) = false).
    { apply Z.leb_gt. apply Z.lt_trans with (2 ^ 53); [lia | reflexivity]. }
    unfold of_integer, round53. rewrite Hlt. cbv beta iota zeta. rewrite Hbig.
    f_equal. lia.
Qed.

(** Below [2^53] a number prints as the integer it is. *)
Lemma number_to_string_small (n : Z) :
  Z.abs n < 2 ^ 53 -> number_to_string n = pretty n.
Proof.
  intros Hn.
  assert (Hlt : (Z.abs n <? 2 ^ 53) = true) by (by apply Z.ltb_lt).
  unfold number_to_string, round53. rewrite Hlt. cbv beta iota zeta.
  by rewrite Hlt.
Qed.

End Decimal.

(** ** The paginated city client: validators, metadata, failures *)

Section CitiesMore.
Import Js Errors Fetch MockApi.

(** Every request of a call goes to the URL of the call with the headers of
    the call. *)
Lemma loop_requests_carry net url opts fuel k lastError c evs u h :
  retry_loop net url opts fuel k lastError = Some (c, evs) ->
  EvFetch u h ∈ evs -> u = url /\ h = headers opts.
Proof.
  revert k lastError c evs.
  induction fuel as [| fuel IH]; intros k lastError c evs; cbn [retry_loop].
  - case_match; [done |]. intros [= <- <-] Hin. by apply elem_of_nil in Hin.
  - case_match; [| intros [= <- <-] Hin; by apply elem_of_nil in Hin].
    assert (Hend : forall c', Some (c', [EvFetch url (headers opts)]) = Some (c, evs) ->
                   EvFetch u h ∈ evs -> u = url /\ h = headers opts).
    { intros c' [= <- <-] Hin. apply list_elem_of_singleton in Hin.
      by injection Hin as -> ->. }
    destruct (try_block net url opts k) as [ok | error]; [apply Hend |].
    repeat case_match; try apply Hend.
    destruct (retry_loop net url opts fuel (S k) (Some error))
      as [[c' evs'] |] eqn:Hnext; [| done].
    intros [= <- <-] Hin. cbn in Hin.
    apply elem_of_cons in Hin as [Hin | Hin]; [by injection Hin as -> -> |].
    apply elem_of_cons in Hin as [Hin | Hin]; [done |].
    by apply (IH _ _ _ _ Hnext).
Qed.

Lemma rethrow_classified error :
  isNetworkError (rethrow error) || isBusinessError (rethrow error) = true.
Proof.
  unfold rethrow. destruct (isNetworkError error) eqn:Hn; [by rewrite Hn |].
  destruct (isBusinessError error) eqn:Hb; [by rewrite Hb, orb_true_r | done].
Qed.

(** X18. Whatever makes [getCitiesPaginated] fail, the error it throws is of
    one of the two classes, and the ETag cache is left as it was. *)
Theorem cities_failure_is_classified net now page limit signal useETag cache
    error evs cache' :
  getCitiesPaginated net now page limit signal useETag cache
    = Some (Thrown error, evs, cache') ->
  isNetworkError error || isBusinessError error = true /\ cache' = cache.
Proof.
  unfold getCitiesPaginated.
  destruct (fetchWithRetry _ _ _) as [[[response | thrown] evs0] |]; [| | done].
  - destruct (fetched_status response =? 304); [done |].
    repeat case_match; try done; intros [= <- _ <-];
      (split; [apply rethrow_classified | done]).
  - intros [= <- _ <-]. split; [apply rethrow_classified | done].
Qed.

(** X19. With [useETag] off, a call sends its requests without any header
    and leaves the ETag cache as it was, whatever the answer, validator or
    not. *)
Theorem without_etag_nothing_is_cached net now page limit signal cache c evs
    cache' :
  getCitiesPaginated net now page limit signal false cache = Some (c, evs, cache') ->
  cache' = cache /\
  (1 <= requests evs)%nat /\
  (forall u h, EvFetch u h ∈ evs -> u = citiesUrl page limit /\ h = []).
Proof.
  unfold getCitiesPaginated. cbn [conditional_headers andb].
  destruct (fetchWithRetry _ _ _) as [[[response | thrown] evs0] |] eqn:Hrun;
    [| | done].
  - assert (Hsent : (1 <= requests evs0)%nat)
      by (apply loop_sends in Hrun; [done | cbn; lia]).
    pose proof (fun u h => loop_requests_carry _ _ _ _ _ _ _ _ u h Hrun) as Hcarry.
    destruct (fetched_status response =? 304).
    { by intros [= _ <- <-]. }
    repeat case_match; try done; by intros [= _ <- <-].
  - intros [= _ <- <-]. split; [done |].
    split; [apply loop_sends in Hrun; [done | cbn; lia] |].
    intros u h. apply (loop_requests_carry _ _ _ _ _ _ _ _ u h Hrun).
Qed.


(** X21. The page assembled from an answer whose body is an array: [data]
    is the array, [page] and [limit] are those asked; [total] is, when the
    [X-Total-Count] header is there with an integer written in decimal, the
    double nearest to that integer, which is the integer itself up to
    [2^53], and the length of the array when the header is not there;
    [hasMore] tells whether the [Link] header advertises a next page. *)
Theorem page_metadata net now page limit signal useETag cache response evs items :
  let url := citiesUrl page limit in
  let headers := fetched_headers response in
  fetchWithRetry net url
    {| retries := 2; backoffMs := 500; timeoutMs := 5000; signal := signal;
       Fetch.headers := conditional_headers useETag url cache |}
    = Some (Returned response, evs) ->
  data response = JArr items ->
  exists result cache',
    getCitiesPaginated net now page limit signal useETag cache
      = Some (Returned result, evs, cache') /\
    get_prop "data" result = JArr items /\
    get_prop "page" result = JNum page /\
    get_prop "limit" result = JNum limit /\
    (forall n, Headers.get "X-Total-Count" headers = Some (pretty n) ->
       get_prop "total" result = of_integer n /\
       (Z.abs n <= 2 ^ 53 -> get_prop "total" result = JNum n)) /\
    (Headers.get "X-Total-Count" headers = None ->
       get_prop "total" result = JNum (Z.of_nat (List.length items))) /\
    get_prop "hasMore" result =
      JBool (match Headers.get "Link" headers with
             | Some link => includes ("rel=" +:+ dquote +:+ "next" +:+ dquote) link
             | None => false
             end).
Proof.
  intros url headers Hrun Hdata. subst headers.
  unfold getCitiesPaginated. fold url. rewrite Hrun.
  pose proof (returned_is_ok _ _ _ _ _ _ _ _ Hrun) as Hok.
  destruct (Z.eqb_spec (fetched_status response) 304); [lia |].
  rewrite Hdata.
  assert (Hmore : forall link,
    (if negb (String.eqb link "")
     then includes ("rel=" +:+ dquote +:+ "next" +:+ dquote) link else false)
    = includes ("rel=" +:+ dquote +:+ "next" +:+ dquote) link).
  { intros link. by destruct (String.eqb_spec link "") as [-> |]. }
  destruct (Headers.get "X-Total-Count" (fetched_headers response))
    as [count |] eqn:Hcount.
  - destruct (String.eqb count "") eqn:Hempty; cbn [negb length_of].
    + eexists _, _. split; [reflexivity |]. cbn.
      split; [done |]. split; [done |]. split; [done |].
      split; [intros m [= ->]; by rewrite pretty_nonempty in Hempty |].
      split; [done |].
      destruct (Headers.get "Link" _) as [link |]; [by rewrite Hmore | done].
    + eexists _, _. split; [reflexivity |]. cbn.
      split; [done |]. split; [done |]. split; [done |].
      split.
      { intros m [= ->]. rewrite parseInt_pretty.
        split; [done | apply of_integer_small]. }
      split; [done |].
      destruct (Headers.get "Link" _) as [link |]; [by rewrite Hmore | done].
  - cbn [length_of]. eexists _, _. split; [reflexivity |]. cbn.
    split; [done |]. split; [done |]. split; [done |].
    split; [done |]. split; [done |].
    destruct (Headers.get "Link" _) as [link |]; [by rewrite Hmore | done].
Qed.

End CitiesMore.

(** ** Search and lookup by identifier *)

Section SearchAndLookup.
Import Js Errors Fetch MockApi.

(** X22. For a query that can be percent-encoded, [searchCities] throws
    nothing but network errors: whatever makes it fail, the error thrown has
    the network flag; a business error of the fetch, such as the one of a
    404 or a 429, is thrown wrapped in a [NetworkError]; and the search
    sends one or two requests. For a query that cannot, it throws the
    [URIError] of [encodeURIComponent] as it is, an error without the
    network flag, and sends no request. *)
Theorem search_failures_are_network net query signal c evs :
  searchCities net query signal = Some (c, evs) ->
  (lone_surrogate query = false ->
     (1 <= requests evs <= 2)%nat /\
     (forall error, c = Thrown error -> isNetworkError error = true) /\
     (forall thrown,
        fetchWithRetry net (searchUrl query) (searchOptions signal)
          = Some (Thrown thrown, evs) ->
        isNetworkError thrown = false ->
        c = Thrown (NetworkError ("Ошибка поиска городов: " +:+ message thrown)
                      JUndefined))) /\
  (lone_surrogate query = true ->
     c = Thrown URIError /\ evs = [] /\ requests evs = 0%nat /\
     isNetworkError URIError = false).
Proof.
  unfold searchCities, encodeURIComponent.
  destruct (lone_surrogate query); [by intros [= <- <-] |].
  change (searchUrlOf (escape query)) with (searchUrl query).
  destruct (fetchWithRetry _ _ _) as [[[response | thrown] evs0] |] eqn:Hrun;
    [| | done].
  - assert (Hbudget : (1 <= requests evs0 <= 2)%nat).
    { split; [apply loop_sends in Hrun; [done | cbn; lia] |].
      apply loop_budget in Hrun. cbn in Hrun. lia. }
    destruct (length_of (data response)) as [count | error0] eqn:Hlen.
    + intros [= <- <-]. split; [intros _ | done].
      split; [done |]. split; [by intros error [=] |].
      by intros thrown [=].
    + intros [= <- <-]. split; [intros _ | done].
      split; [done |]. split; [| by intros thrown [=]].
      intros error [= <-]. by destruct (isNetworkError error0) eqn:Hn.
  - assert (Hbudget : (1 <= requests evs0 <= 2)%nat).
    { split; [apply loop_sends in Hrun; [done | cbn; lia] |].
      apply loop_budget in Hrun. cbn in Hrun. lia. }
    intros [= <- <-]. split; [intros _ | done]. split; [done |]. split.
    + intros error [= <-]. by destruct (isNetworkError thrown) eqn:Hn.
    + intros thrown' [= <-] Hn. by rewrite Hn.
Qed.

(** X23. What [searchCities] returns is the parsed body of the last answer,
    under [data], and its number of elements when it is an array, under
    [count]. *)
Theorem search_returns_the_matches net query signal result evs :
  searchCities net query signal = Some (Returned result, evs) ->
  exists n r body,
    requests evs = S n /\
    net n (searchUrl query) [] = Resolved r /\
    Response.json r = inl body /\
    get_prop "data" result = body /\
    (forall items, body = JArr items ->
       get_prop "count" result = JNum (Z.of_nat (List.length items))).
Proof.
  unfold searchCities, encodeURIComponent.
  destruct (lone_surrogate query); [done |].
  change (searchUrlOf (escape query)) with (searchUrl query).
  destruct (fetchWithRetry _ _ _) as [[[response | thrown] evs0] |] eqn:Hrun;
    [| done..].
  destruct (loop_returns_last _ _ _ _ _ _ _ _ Hrun)
    as (n & r & Hreq & Hnet & _ & Hjson & _).
  destruct (length_of (data response)) as [count | error0] eqn:Hlen; [| done].
  intros [= <- <-]. exists n, r, (data response).
  split; [done |]. split; [exact Hnet |]. split; [done |]. split; [done |].
  intros items Hitems. rewrite Hitems in Hlen. cbn in Hlen |- *.
  by injection Hlen as <-.
Qed.

(** X24. [getCityById] turns the not-found error into a [BusinessError]
    with code [CITY_NOT_FOUND] that names the identifier: a 404 answer (no
    timeout) ends the call after that request, with no status recorded on
    the error. The identifier stands in the URL and in the message as a
    template literal prints the number: in plain decimal below [2^53],
    with an exponent from [10^21] on. *)
Theorem city_by_id_not_found net id k r :
  let url := cityUrl id in
  let error :=
    BusinessError ("Город с ID " +:+ number_to_string id +:+ " не найден")
      (JStr "CITY_NOT_FOUND") JUndefined in
  reaches net url cityOptions k ->
  Z.of_nat k <= 1 ->
  net k url [] = Resolved r ->
  Response.status r = 404 ->
  getCityById net id =
    Some (Thrown error, (rounds url cityOptions k ++ [EvFetch url []])%list) /\
  statusCode error = JNull /\
  url = MOCK_API_URL +:+ "/cities/" +:+ number_to_string id /\
  (Z.abs id < 2 ^ 53 -> number_to_string id = pretty id).
Proof.
  intros url error Hreach Hk Hnet Hstatus.
  split; [| split; [done | split; [done | apply number_to_string_small]]].
  assert (Hrun : fetchWithRetry net url cityOptions =
    Some (Thrown (classify r), (rounds url cityOptions k ++ [EvFetch url []])%list)).
  { apply (business_at net url cityOptions k (classify r)); [done | done | | |].
    - apply try_block_rejects; [done | apply not_ok; lia].
    - by rewrite classify_name.
    - by rewrite classify_not_found. }
  unfold getCityById. fold url. rewrite Hrun.
  by rewrite classify_not_found.
Qed.

(** X25. Every other failure of [getCityById] is the failure of the fetch,
    unchanged; so whatever makes the lookup fail, the error thrown is of one
    of the two classes, and the lookup sends one or two requests. *)
Theorem city_by_id_failures net id c evs :
  getCityById net id = Some (c, evs) ->
  (1 <= requests evs <= 2)%nat /\
  (forall error, c = Thrown error ->
     isNetworkError error || isBusinessError error = true /\
     (code error = JStr "CITY_NOT_FOUND" \/
      fetchWithRetry net (cityUrl id) cityOptions = Some (Thrown error, evs))).
Proof.
  unfold getCityById.
  destruct (fetchWithRetry _ _ _) as [[[response | thrown] evs0] |] eqn:Hrun;
    [| | done].
  - intros [= <- <-]. split; [| done].
    split; [apply loop_sends in Hrun; [done | cbn; lia] |].
    apply loop_budget in Hrun. cbn in Hrun. lia.
  - assert (Hbudget : (1 <= requests evs0 <= 2)%nat).
    { split; [apply loop_sends in Hrun; [done | cbn; lia] |].
      apply loop_budget in Hrun. cbn in Hrun. lia. }
    destruct (is_str "NOT_FOUND" (code thrown)).
    + intros [= <- <-]. split; [done |]. intros error [= <-]. split; [done | by left].
    + intros [= <- <-]. split; [done |]. intros error [= <-]. split; [| by right].
      apply loop_throws_typed in Hrun; [done | cbn; lia].
Qed.

End SearchAndLookup.

(** ** The search history *)

Section History.
Import Main.

Lemma removelast_cons {A} (x : A) l : l <> [] -> removelast (x :: l) = x :: removelast l.
Proof. by destruct l. Qed.

Lemma removelast_length {A} (l : list A) :
  List.length (removelast l) = pred (List.length l).
Proof.
  induction l as [| x l IH]; [done |].
  destruct l as [| y l]; [done |]. cbn [removelast List.length] in *. by rewrite IH.
Qed.

Lemma removelast_elem {A} (x : A) l : x ∈ removelast l -> x ∈ l.
Proof.
  induction l as [| y l IH]; [done |].
  destruct l as [| z l]; [by intros ?%elem_of_nil |].
  rewrite removelast_cons by done.
  intros [-> | Hin]%elem_of_cons; [left | right; by apply IH].
Qed.

Lemma removelast_NoDup {A} (l : list A) : NoDup l -> NoDup (removelast l).
Proof.
  induction l as [| y l IH]; [done |].
  destruct l as [| z l]; [intros _; constructor |].
  rewrite removelast_cons by done.
  intros [Hy Hl]%NoDup_cons. apply NoDup_cons. split; [| by apply IH].
  intros Hin. by apply Hy, removelast_elem.
Qed.

(** X26. The history keeps at most ten names, each once: a history without
    duplicates and of at most ten entries stays so when a name is added,
    and the name added is in it afterwards. *)
Theorem history_stays_bounded cityName (searchHistory : list string) :
  NoDup searchHistory ->
  (List.length searchHistory <= 10)%nat ->
  NoDup (addToHistory cityName searchHistory) /\
  (List.length (addToHistory cityName searchHistory) <= 10)%nat /\
  cityName ∈ addToHistory cityName searchHistory.
Proof.
  intros Hnodup Hlen. unfold addToHistory.
  case_bool_decide as Hin; [done |].
  assert (Hnew : NoDup (cityName :: searchHistory)) by (by apply NoDup_cons).
  destruct (Nat.ltb_spec 10 (List.length (cityName :: searchHistory))) as [Hfull | Hroom].
  - split; [by apply removelast_NoDup |].
    split; [rewrite removelast_length; cbn in *; lia |].
    destruct searchHistory as [| y l]; [cbn in Hfull; lia |].
    rewrite removelast_cons by done. by left.
  - split; [done |]. split; [done | by left].
Qed.

(** X27. A new name goes to the front and, when the history already holds
    ten, the oldest (last) one is dropped; a name already in the history
    leaves the history as it is: it is not moved to the front. *)
Theorem history_order cityName (searchHistory : list string) :
  (cityName ∈ searchHistory ->
     addToHistory cityName searchHistory = searchHistory) /\
  (cityName ∉ searchHistory -> (List.length searchHistory < 10)%nat ->
     addToHistory cityName searchHistory = cityName :: searchHistory) /\
  (cityName ∉ searchHistory -> (10 <= List.length searchHistory)%nat ->
     addToHistory cityName searchHistory = cityName :: removelast searchHistory).
Proof.
  unfold addToHistory. split; [| split].
  - intros Hin. by rewrite bool_decide_eq_true_2.
  - intros Hnotin Hlen. rewrite bool_decide_eq_false_2 by done.
    by destruct (Nat.ltb_spec 10 (List.length (cityName :: searchHistory)));
      [cbn in *; lia |].
  - intros Hnotin Hlen. rewrite bool_decide_eq_false_2 by done.
    destruct (Nat.ltb_spec 10 (List.length (cityName :: searchHistory)));
      [| cbn in *; lia].
    apply removelast_cons. by destruct searchHistory; [cbn in Hlen; lia |].
Qed.

End History.

(** ** Instances *)

Section ClientWitnesses.
Import Js Errors Fetch WeatherApi MockApi Examples Main.

#[local] Abbreviation lower := Headers.lowercase.

Lemma weather_failure_is_classified_witness :
  let error := remap "Nowhere" (classify not_found) in
  let half := three_bytes 55357 in
  getWeatherByCity lower (always not_found) 0 1 "Nowhere" false None weatherCache
    = Some (Thrown error, [EvFetch (weatherUrl "Nowhere") []], weatherCache) /\
  lone_surrogate "Nowhere" = false /\
  isNetworkError error || isBusinessError error = true /\
  getWeatherByCity lower (always weather_ok) 0 1 half false None weatherCache
    = Some (Thrown URIError, [], weatherCache) /\
  lone_surrogate half = true /\
  isNetworkError URIError || isBusinessError URIError = false.
Proof.
  intros error half.
  assert (H1 : getWeatherByCity lower (always not_found) 0 1 "Nowhere" false None
                 weatherCache
               = Some (Thrown error, [EvFetch (weatherUrl "Nowhere") []],
                       weatherCache))
    by reflexivity.
  assert (H2 : lone_surrogate "Nowhere" = false) by reflexivity.
  assert (H3 : getWeatherByCity lower (always weather_ok) 0 1 half false None
                 weatherCache
               = Some (Thrown URIError, [], weatherCache)) by reflexivity.
  assert (H4 : lone_surrogate half = true) by reflexivity.
  split; [exact H1 |]. split; [exact H2 |].
  split; [exact (proj1 (weather_failure_is_classified lower _ _ _ _ _ _ _ _ _ _ H1)
                   H2) |].
  split; [exact H3 |]. split; [exact H4 |].
  exact (proj2 (proj2 (proj2 (weather_failure_is_classified lower _ _ _ _ _ _ _
                                _ _ _ H3) H4))).
Defined.

Lemma weather_failure_stores_nothing_witness :
  let minsk := cacheKey lower "Minsk" in
  let moscow_key := cacheKey lower "Moscow" in
  let cache :=
    CacheWithTTL.set 650000 minsk cities
      (CacheWithTTL.set 0 moscow_key moscow weatherCache) in
  let cache' := (read_cache lower 700000 "Moscow" false cache).2 in
  let error := remap "Moscow" (classify server_error) in
  let evs := [EvFetch (weatherUrl "Moscow") []; EvSleep 500;
              EvFetch (weatherUrl "Moscow") []; EvSleep 1000;
              EvFetch (weatherUrl "Moscow") []] in
  getWeatherByCity lower (always server_error) 700000 700001 "Moscow" false None
    cache
    = Some (Thrown error, evs, cache') /\
  minsk <> moscow_key /\
  CacheWithTTL.cache cache' !! minsk = CacheWithTTL.cache cache !! minsk /\
  CacheWithTTL.cache cache !! minsk
    = Some {| CacheWithTTL.value := cities; CacheWithTTL.expiresAt := 1250000 |} /\
  CacheWithTTL.cache cache !! moscow_key
    = Some {| CacheWithTTL.value := moscow; CacheWithTTL.expiresAt := 600000 |} /\
  CacheWithTTL.cache cache' !! moscow_key = None /\
  CacheWithTTL.ttlMs cache' = CacheWithTTL.ttlMs cache.
Proof.
  intros minsk moscow_key cache cache' error evs.
  assert (H1 : getWeatherByCity lower (always server_error) 700000 700001 "Moscow"
                 false None cache
               = Some (Thrown error, evs, cache')) by reflexivity.
  assert (H2 : minsk <> moscow_key) by discriminate.
  destruct (weather_failure_stores_nothing lower _ _ _ _ _ _ _ _ _ _ H1)
    as (_ & Httl & Hothers & _ & _).
  split; [exact H1 |]. split; [exact H2 |].
  split; [exact (Hothers minsk H2) |].
  split; [reflexivity |]. split; [reflexivity |]. split; [reflexivity |].
  exact Httl.
Defined.

Lemma weather_error_codes_witness :
  let net := always too_many in
  let url := weatherUrl "Moscow" in
  let opts := requestOptions None in
  lone_surrogate "Moscow" = false /\
  reaches net url opts 0 /\
  Z.of_nat 0 <= 2 /\
  net 0%nat url (headers opts) = Resolved too_many /\
  signal_aborted opts 0 = false /\
  truthy (read_cache lower 0 "Moscow" false weatherCache).1 = false /\
  Response.status too_many = 429 /\
  exists error,
    getWeatherByCity lower net 0 1 "Moscow" false None weatherCache
      = Some (Thrown error, [EvFetch url []], weatherCache) /\
    code error = JStr "RATE_LIMIT_EXCEEDED" /\
    statusCode error = JNull.
Proof.
  intros net url opts.
  assert (H0 : lone_surrogate "Moscow" = false) by reflexivity.
  assert (H1 : reaches net url opts 0) by (intros j Hj; lia).
  assert (H2 : Z.of_nat 0 <= 2) by lia.
  assert (H3 : net 0%nat url (headers opts) = Resolved too_many) by reflexivity.
  assert (H4 : signal_aborted opts 0 = false) by reflexivity.
  assert (H5 : truthy (read_cache lower 0 "Moscow" false weatherCache).1 = false)
    by reflexivity.
  assert (H6 : Response.status too_many = 404 \/ Response.status too_many = 401 \/
               Response.status too_many = 403 \/ Response.status too_many = 429)
    by (do 3 right; reflexivity).
  split; [exact H0 |].
  split; [exact H1 |]. split; [exact H2 |]. split; [exact H3 |].
  split; [exact H4 |]. split; [exact H5 |]. split; [reflexivity |].
  destruct (weather_error_codes lower net 0 1 "Moscow" false None weatherCache 0
              too_many H0 H1 H2 H3 H4 H5 H6)
    as (error & Hrun & _ & _ & Hstatus & Hcode).
  exists error. split; [exact Hrun |]. split; [exact Hcode | exact Hstatus].
Defined.

Lemma cache_info_after_lookup_witness :
  let result := set_prop "fromCache" (JBool false) (spread moscow) in
  let cache' := CacheWithTTL.set 10 (cacheKey lower "Moscow") moscow weatherCache in
  getWeatherByCity lower (always weather_ok) 0 10 "Moscow" false None weatherCache
    = Some (Returned result, [EvFetch (weatherUrl "Moscow") []], cache') /\
  lower "MOSCOW" = lower "Moscow" /\
  is_Some (getCacheInfo lower 500 "MOSCOW" cache').
Proof.
  intros result cache'.
  assert (H1 : getWeatherByCity lower (always weather_ok) 0 10 "Moscow" false None
                 weatherCache
               = Some (Returned result, [EvFetch (weatherUrl "Moscow") []], cache'))
    by reflexivity.
  assert (H2 : lower "MOSCOW" = lower "Moscow") by reflexivity.
  split; [exact H1 |]. split; [exact H2 |].
  exact (cache_info_after_lookup lower _ _ _ _ "MOSCOW" _ _ _ _ _ _ 500 H1 H2).
Defined.

Lemma lookup_after_clear_witness :
  let cache := CacheWithTTL.set 0 (cacheKey lower "Moscow") moscow weatherCache in
  let result := set_prop "fromCache" (JBool false) (spread moscow) in
  let half := three_bytes 55357 in
  lone_surrogate "Moscow" = false /\
  lone_surrogate half = true /\
  exists cache' cache'',
    getWeatherByCity lower (always weather_ok) 5 6 "Moscow" false None
      (clearCache cache)
      = Some (Returned result, [EvFetch (weatherUrl "Moscow") []], cache') /\
    (1 <= requests [EvFetch (weatherUrl "Moscow") []])%nat /\
    get_prop "fromCache" result = JBool false /\
    getWeatherByCity lower (always weather_ok) 5 6 half false None
      (clearCache cache)
      = Some (Thrown URIError, [], cache'').
Proof.
  intros cache result half.
  assert (H1 : lone_surrogate "Moscow" = false) by reflexivity.
  assert (H2 : lone_surrogate half = true) by reflexivity.
  split; [exact H1 |]. split; [exact H2 |]. eexists _, _.
  assert (H : getWeatherByCity lower (always weather_ok) 5 6 "Moscow" false None
                (clearCache cache)
              = Some (Returned result, [EvFetch (weatherUrl "Moscow") []],
                      CacheWithTTL.set 6 (cacheKey lower "Moscow") moscow
                        (clearCache cache))) by reflexivity.
  assert (H' : getWeatherByCity lower (always weather_ok) 5 6 half false None
                 (clearCache cache)
               = Some (Thrown URIError, [], clearCache cache)) by reflexivity.
  split; [exact H |].
  destruct (lookup_after_clear lower _ _ _ _ _ _ _ _ _ H) as (Hsent & _ & Htag).
  split; [exact (Hsent H1) |]. split; [by apply Htag | exact H'].
Defined.

Lemma cities_failure_is_classified_witness :
  let url := citiesUrl 1 10 in
  let error := NetworkError "HTTP 304: Not Modified" (JNum 304) in
  let evs := [EvFetch url [("If-None-Match", "v1")]; EvSleep 500;
              EvFetch url [("If-None-Match", "v1")]; EvSleep 1000;
              EvFetch url [("If-None-Match", "v1")]] in
  getCitiesPaginated conditional 2000 1 10 None true stored
    = Some (Thrown error, evs, stored) /\
  isNetworkError error || isBusinessError error = true.
Proof.
  intros url error evs.
  assert (H : getCitiesPaginated conditional 2000 1 10 None true stored
              = Some (Thrown error, evs, stored)) by (vm_compute; reflexivity).
  split; [exact H |].
  exact (proj1 (cities_failure_is_classified _ _ _ _ _ _ _ _ _ _ H)).
Defined.

Lemma without_etag_nothing_is_cached_witness :
  let url := citiesUrl 1 10 in
  getCitiesPaginated conditional 2000 1 10 None false stored
    = Some (Returned first_page, [EvFetch url []], stored) /\
  (1 <= requests [EvFetch url []])%nat.
Proof.
  intros url.
  assert (H : getCitiesPaginated conditional 2000 1 10 None false stored
              = Some (Returned first_page, [EvFetch url []], stored))
    by (vm_compute; reflexivity).
  split; [exact H |].
  exact (proj1 (proj2 (without_etag_nothing_is_cached _ _ _ _ _ _ _ _ _ H))).
Defined.


Lemma page_metadata_witness :
  let url := citiesUrl 1 10 in
  let response := {| data := cities;
                     fetched_headers := [("ETag", "v1"); ("X-Total-Count", "25")];
                     fetched_status := 200 |} in
  let many := [("X-Total-Count", "9007199254740993")] in
  let crowded := {| data := cities; fetched_headers := many;
                    fetched_status := 200 |} in
  fetchWithRetry conditional url
    {| retries := 2; backoffMs := 500; timeoutMs := 5000; signal := None;
       headers := conditional_headers true url etagCache |}
    = Some (Returned response, [EvFetch url []]) /\
  Headers.get "X-Total-Count" (fetched_headers response) = Some (pretty 25) /\
  Z.abs 25 <= 2 ^ 53 /\
  fetchWithRetry (always (respond 200 "OK" many cities)) url
    {| retries := 2; backoffMs := 500; timeoutMs := 5000; signal := None;
       headers := conditional_headers true url etagCache |}
    = Some (Returned crowded, [EvFetch url []]) /\
  Headers.get "X-Total-Count" many = Some (pretty 9007199254740993) /\
  (exists result cache',
     getCitiesPaginated conditional 1000 1 10 None true etagCache
       = Some (Returned result, [EvFetch url []], cache') /\
     get_prop "total" result = JNum 25 /\
     get_prop "hasMore" result = JBool false) /\
  (exists result cache',
     getCitiesPaginated (always (respond 200 "OK" many cities)) 1000 1 10 None
       true etagCache
       = Some (Returned result, [EvFetch url []], cache') /\
     get_prop "total" result = JNum 9007199254740992).
Proof.
  intros url response many crowded.
  assert (H1 : fetchWithRetry conditional url
                 {| retries := 2; backoffMs := 500; timeoutMs := 5000;
                    signal := None;
                    headers := conditional_headers true url etagCache |}
               = Some (Returned response, [EvFetch url []]))
    by (vm_compute; reflexivity).
  assert (H2 : Headers.get "X-Total-Count" (fetched_headers response)
               = Some (pretty 25)) by (vm_compute; reflexivity).
  assert (H3 : Z.abs 25 <= 2 ^ 53) by (vm_compute; discriminate).
  assert (H4 : fetchWithRetry (always (respond 200 "OK" many cities)) url
                 {| retries := 2; backoffMs := 500; timeoutMs := 5000;
                    signal := None;
                    headers := conditional_headers true url etagCache |}
               = Some (Returned crowded, [EvFetch url []]))
    by (vm_compute; reflexivity).
  assert (H5 : Headers.get "X-Total-Count" many
               = Some (pretty 9007199254740993)) by (vm_compute; reflexivity).
  split; [exact H1 |]. split; [exact H2 |]. split; [exact H3 |].
  split; [exact H4 |]. split; [exact H5 |]. split.
  - destruct (page_metadata conditional 1000 1 10 None true etagCache response
                [EvFetch url []] _ H1 eq_refl)
      as (result & cache' & Hrun & _ & _ & _ & Htotal & _ & Hmore).
    exists result, cache'. split; [exact Hrun |].
    split; [exact (proj2 (Htotal 25 H2) H3) | exact Hmore].
  - destruct (page_metadata (always (respond 200 "OK" many cities)) 1000 1 10
                None true etagCache crowded [EvFetch url []] _ H4 eq_refl)
      as (result & cache' & Hrun & _ & _ & _ & Htotal & _).
    exists result, cache'. split; [exact Hrun |].
    exact (proj1 (Htotal 9007199254740993 H5)).
Defined.

Lemma search_failures_are_network_witness :
  let evs := [EvFetch (searchUrl "Min") []] in
  let half := three_bytes 56832 in
  searchCities (always not_found) "Min" None
    = Some (Thrown (NetworkError "Ошибка поиска городов: Ресурс не найден (404)"
                      JUndefined), evs) /\
  lone_surrogate "Min" = false /\
  fetchWithRetry (always not_found) (searchUrl "Min") (searchOptions None)
    = Some (Thrown (classify not_found), evs) /\
  isNetworkError (classify not_found) = false /\
  (1 <= requests evs <= 2)%nat /\
  searchCities (always page_one) half None = Some (Thrown URIError, []) /\
  lone_surrogate half = true /\
  isNetworkError URIError = false.
Proof.
  intros evs half.
  assert (H1 : searchCities (always not_found) "Min" None
               = Some (Thrown (NetworkError
                                 "Ошибка поиска городов: Ресурс не найден (404)"
                                 JUndefined), evs)) by reflexivity.
  assert (H2 : fetchWithRetry (always not_found) (searchUrl "Min")
                 (searchOptions None)
               = Some (Thrown (classify not_found), evs)) by reflexivity.
  assert (H3 : lone_surrogate "Min" = false) by reflexivity.
  assert (H4 : searchCities (always page_one) half None
               = Some (Thrown URIError, [])) by reflexivity.
  assert (H5 : lone_surrogate half = true) by reflexivity.
  split; [exact H1 |]. split; [exact H3 |]. split; [exact H2 |].
  split; [reflexivity |].
  split; [exact (proj1 (proj1 (search_failures_are_network _ _ _ _ _ H1) H3)) |].
  split; [exact H4 |]. split; [exact H5 |].
  exact (proj2 (proj2 (proj2 (proj2 (search_failures_are_network _ _ _ _ _ H4)
                                H5)))).
Defined.

Lemma search_returns_the_matches_witness :
  let result := [("data", cities); ("count", JNum 2)] in
  let evs := [EvFetch (searchUrl "s") []] in
  searchCities (always page_one) "s" None = Some (Returned result, evs) /\
  exists n r body,
    requests evs = S n /\
    always page_one n (searchUrl "s") [] = Resolved r /\
    Response.json r = inl body /\
    get_prop "data" result = body /\
    (forall items, body = JArr items ->
       get_prop "count" result = JNum (Z.of_nat (List.length items))).
Proof.
  intros result evs.
  assert (H : searchCities (always page_one) "s" None
              = Some (Returned result, evs)) by reflexivity.
  split; [exact H |].
  exact (search_returns_the_matches _ _ _ _ _ H).
Defined.

Lemma city_by_id_not_found_witness :
  let url := cityUrl 42 in
  let far := cityUrl (10 ^ 21) in
  reaches (always not_found) url cityOptions 0 /\
  Z.of_nat 0 <= 1 /\
  always not_found 0%nat url [] = Resolved not_found /\
  Response.status not_found = 404 /\
  Z.abs 42 < 2 ^ 53 /\
  getCityById (always not_found) 42 =
    Some (Thrown (BusinessError ("Город с ID " +:+ number_to_string 42
                                   +:+ " не найден")
                    (JStr "CITY_NOT_FOUND") JUndefined),
          [EvFetch url []]) /\
  number_to_string 42 = pretty 42 /\
  url = "http://localhost:3001/cities/42" /\
  reaches (always not_found) far cityOptions 0 /\
  always not_found 0%nat far [] = Resolved not_found /\
  getCityById (always not_found) (10 ^ 21) =
    Some (Thrown (BusinessError ("Город с ID " +:+ number_to_string (10 ^ 21)
                                   +:+ " не найден")
                    (JStr "CITY_NOT_FOUND") JUndefined),
          [EvFetch far []]) /\
  number_to_string (10 ^ 21) = "1e+21" /\
  far = "http://localhost:3001/cities/1e+21".
Proof.
  intros url far.
  assert (H1 : reaches (always not_found) url cityOptions 0)
    by (intros j Hj; lia).
  assert (H2 : Z.of_nat 0 <= 1) by lia.
  assert (H3 : always not_found 0%nat url [] = Resolved not_found) by reflexivity.
  assert (H4 : Response.status not_found = 404) by reflexivity.
  assert (H5 : Z.abs 42 < 2 ^ 53) by reflexivity.
  assert (H6 : reaches (always not_found) far cityOptions 0)
    by (intros j Hj; lia).
  assert (H7 : always not_found 0%nat far [] = Resolved not_found) by reflexivity.
  destruct (city_by_id_not_found (always not_found) 42 0 not_found H1 H2 H3 H4)
    as (Hrun & _ & _ & Hplain).
  destruct (city_by_id_not_found (always not_found) (10 ^ 21) 0 not_found
              H6 H2 H7 H4) as (Hrun' & _ & _ & _).
  split; [exact H1 |]. split; [exact H2 |]. split; [exact H3 |].
  split; [exact H4 |]. split; [exact H5 |].
  split; [exact Hrun |]. split; [exact (Hplain H5) |].
  split; [vm_compute; reflexivity |].
  split; [exact H6 |]. split; [exact H7 |].
  split; [exact Hrun' |].
  split; vm_compute; reflexivity.
Defined.

Lemma city_by_id_failures_witness :
  let url := cityUrl 42 in
  let evs := [EvFetch url []; EvSleep 500; EvFetch url []] in
  getCityById (always server_error) 42
    = Some (Thrown (classify server_error), evs) /\
  (1 <= requests evs <= 2)%nat.
Proof.
  intros url evs.
  assert (H : getCityById (always server_error) 42
              = Some (Thrown (classify server_error), evs)) by reflexivity.
  split; [exact H |].
  exact (proj1 (city_by_id_failures _ _ _ _ H)).
Defined.

Lemma history_stays_bounded_witness :
  let full := ["a"; "b"; "c"; "d"; "e"; "f"; "g"; "h"; "i"; "j"] in
  NoDup full /\
  (List.length full <= 10)%nat /\
  NoDup (addToHistory "k" full) /\
  (List.length (addToHistory "k" full) <= 10)%nat /\
  "k" ∈ addToHistory "k" full.
Proof.
  intros full.
  assert (H1 : NoDup full) by (apply (bool_decide_unpack _); vm_compute; exact I).
  assert (H2 : (List.length full <= 10)%nat) by (cbn; lia).
  split; [exact H1 |]. split; [exact H2 |].
  exact (history_stays_bounded "k" full H1 H2).
Defined.

Lemma history_order_witness :
  let full := ["a"; "b"; "c"; "d"; "e"; "f"; "g"; "h"; "i"; "j"] in
  ("c" ∈ full) /\ ("k" ∉ full) /\ (10 <= List.length full)%nat /\
  addToHistory "c" full = full /\
  addToHistory "k" full = ["k"; "a"; "b"; "c"; "d"; "e"; "f"; "g"; "h"; "i"].
Proof.
  intros full.
  assert (H1 : "c" ∈ full) by (apply (bool_decide_unpack _); vm_compute; exact I).
  assert (H2 : "k" ∉ full) by (apply (bool_decide_unpack _); vm_compute; exact I).
  assert (H3 : (10 <= List.length full)%nat) by (cbn; lia).
  destruct (history_order "c" full) as (Hkeep & _ & _).
  destruct (history_order "k" full) as (_ & _ & Hdrop).
  split; [exact H1 |]. split; [exact H2 |]. split; [exact H3 |].
  split; [exact (Hkeep H1) | exact (Hdrop H2 H3)].
Defined.

Lemma cache_hit_unreachable_witness :
  getCitiesPaginated conditional 1000 1 10 None true etagCache
    = Some (Returned first_page, [EvFetch (citiesUrl 1 10) []], stored) /\
  get_prop "cacheHit" first_page = JBool false /\
  get_prop "fromCache" first_page = JBool false.
Proof.
  assert (H : getCitiesPaginated conditional 1000 1 10 None true etagCache
              = Some (Returned first_page, [EvFetch (citiesUrl 1 10) []], stored))
    by (vm_compute; reflexivity).
  split; [exact H |].
  exact (cache_hit_unreachable _ _ _ _ _ _ _ _ _ _ H).
Defined.

End ClientWitnesses.
